(** * Know-your-health-policy chatbot: a model of [streamlit_app.py]

    The application is a Streamlit script: every user action re-runs it from
    the top against a session state that survives between runs.  The model
    below follows the script function by function.  Python values become
    inductive types, dictionaries become finite maps, and the script's
    effects (session state, widgets drawn, exceptions, [st.stop]) are threaded
    through a small state-and-exception monad.  The managed services the
    script calls (search, completion, PDF parsing, the clock, ISO date
    parsing, JSON printing) are section variables. *)

Set Warnings "-register-all".

From Stdlib Require Import ZArith List Ascii String DecimalString SpecFloat.
From stdpp Require Import base option list gmap strings.

Local Open Scope string_scope.
Local Open Scope Z_scope.

(** ** Python strings and numbers *)

Definition nl : string := String (ascii_of_nat 10) "".
Definition dq : string := String (ascii_of_nat 34) "".

(** [unlines ls] is every line of [ls] followed by a line break. *)
Fixpoint unlines (ls : list string) : string :=
  match ls with
  | [] => ""
  | l :: ls' => l +:+ nl +:+ unlines ls'
  end.

(** [bool(s)] for a string. *)
Definition str_truthy (s : string) : bool :=
  match s with
  | "" => false
  | String _ _ => true
  end.

(** [str(n)] for an integer. *)
Definition py_str_int (z : Z) : string := NilZero.string_of_int (Z.to_int z).

Fixpoint zeros (n : nat) : string :=
  match n with
  | O => ""
  | S k => String "0" (zeros k)
  end.

(** ["%0wd" % z] for a natural number [z]. *)
Definition zfill (w : nat) (z : Z) : string :=
  let s := py_str_int z in zeros (w - String.length s) +:+ s.

(** [contains s t]: [t] occurs in [s]. *)
Definition contains (s t : string) : Prop :=
  exists pre post : string, s = pre +:+ t +:+ post.

(** ** Exceptions *)

(** A raised [Exception]; [msg] is what [str(e)] gives. *)
Inductive exn : Type := Exception (msg : string).

Definition exn_str (e : exn) : string := let 'Exception m := e in m.

(** Code that returns or raises, with no other effect. *)
Definition res (A : Type) : Type := exn + A.

Definition res_bind {A B : Type} (c : res A) (k : A -> res B) : res B :=
  match c with
  | inl e => inl e
  | inr a => k a
  end.

Notation "'let?' x := c 'in' k" := (res_bind c (fun x => k))
  (at level 10, x name, c at level 100, k at level 200).

(** ** Dates ([datetime.date] and naive [datetime.datetime]) *)

Record date : Type := mkdate { year : Z; month : Z; day : Z }.

Record datetime : Type := mkdatetime {
  dt_date : date;
  hour : Z;
  minute : Z;
  second : Z;
  microsecond : Z
}.

Definition is_leap (y : Z) : bool :=
  (y mod 4 =? 0) && (negb (y mod 100 =? 0) || (y mod 400 =? 0)).

Definition days_before_year (y : Z) : Z :=
  let y1 := y - 1 in y1 * 365 + y1 / 4 - y1 / 100 + y1 / 400.

Definition DAYS_BEFORE_MONTH : list Z :=
  [-1; 0; 31; 59; 90; 120; 151; 181; 212; 243; 273; 304; 334].

Definition days_before_month (y m : Z) : Z :=
  nth (Z.to_nat m) DAYS_BEFORE_MONTH 0
  + (if (2 <? m) && is_leap y then 1 else 0).

(** [d.toordinal()]: day 1 is 0001-01-01 of the proleptic Gregorian calendar. *)
Definition toordinal (d : date) : Z :=
  days_before_year (year d) + days_before_month (year d) (month d) + day d.

(** [(a - b).days] for two dates. *)
Definition date_diff_days (a b : date) : Z := toordinal a - toordinal b.

(** [d.strftime('%Y-%m-%d')].  The C library formats the fields: the month
    and the day are padded to two digits, the year is written as it is (a
    year below 1000 has fewer than four digits). *)
Definition strftime_ymd (d : date) : string :=
  py_str_int (year d) +:+ "-" +:+ zfill 2 (month d) +:+ "-"
  +:+ zfill 2 (day d).

(** [d.isoformat()]: the year padded to four digits. *)
Definition isoformat_date (d : date) : string :=
  zfill 4 (year d) +:+ "-" +:+ zfill 2 (month d) +:+ "-" +:+ zfill 2 (day d).

(** [str(dt)] for a naive datetime: ISO format with a space separator, the
    microseconds shown only when they are not zero. *)
Definition datetime_str (dt : datetime) : string :=
  isoformat_date (dt_date dt) +:+ " " +:+ zfill 2 (hour dt) +:+ ":"
  +:+ zfill 2 (minute dt) +:+ ":" +:+ zfill 2 (second dt)
  +:+ (if microsecond dt =? 0 then "" else "." +:+ zfill 6 (microsecond dt)).

(** ** Column values of a search result *)

(** A metadata value as the search service hands it over: [None], a string,
    or a datetime object. *)
Inductive pyval : Type :=
  | PNone
  | PStr (s : string)
  | PDatetime (d : datetime).

(** [bool(v)]. *)
Definition truthy (v : pyval) : bool :=
  match v with
  | PNone => false
  | PStr s => str_truthy s
  | PDatetime _ => true
  end.

(** [str(v)], which is what an f-string field [{v}] renders. *)
Definition py_str (v : pyval) : string :=
  match v with
  | PNone => "None"
  | PStr s => s
  | PDatetime d => datetime_str d
  end.

(** [v.date()]: only a datetime has the method. *)
Definition py_date (v : pyval) : res date :=
  match v with
  | PDatetime d => inr (dt_date d)
  | PStr _ => inl (Exception "'str' object has no attribute 'date'")
  | PNone => inl (Exception "'NoneType' object has no attribute 'date'")
  end.

(** ** Floats and the [.4f] format *)

(** A similarity score is an IEEE double, here by its sign, mantissa and
    exponent: [S754_finite s m e] is [(-1)^s * m * 2^e]. *)
Definition float : Type := spec_float.

(** [a / b] rounded to the nearest integer, a tie going to the even one
    ([b] positive). *)
Definition div_round_half_even (a b : Z) : Z :=
  let q := a / b in
  let r := a mod b in
  if 2 * r <? b then q
  else if b <? 2 * r then q + 1
  else if Z.even q then q else q + 1.

(** [m * 2^e * 10^4] rounded to an integer: the digits [.4f] prints. *)
Definition scaled4 (m : positive) (e : Z) : Z :=
  if 0 <=? e then Z.pos m * 2 ^ e * 10000
  else div_round_half_even (Z.pos m * 10000) (2 ^ (- e)).

(** [f"{x:.4f}"] for a float [x]. *)
Definition format_4f (x : float) : string :=
  match x with
  | S754_nan => "nan"
  | S754_infinity s => if s then "-inf" else "inf"
  | S754_zero s => (if s then "-" else "") +:+ "0.0000"
  | S754_finite s m e =>
      let n := scaled4 m e in
      (if s then "-" else "") +:+ py_str_int (n / 10000) +:+ "."
      +:+ zfill 4 (n mod 10000)
  end.

(** The literal [0.0]. *)
Definition float_zero : float := S754_zero false.

Definition is_digit (c : ascii) : bool :=
  let n := nat_of_ascii c in (48 <=? n)%nat && (n <=? 57)%nat.

Fixpoint all_digits (s : string) : bool :=
  match s with
  | "" => true
  | String c s' => is_digit c && all_digits s'
  end.

(** ** Search filters and search results *)

(** The filter grammar of the search service:
    [{"@eq": {field: value}}], [{"@ilike": {field: pattern}}] and
    [{"@and": [filter, ...]}]. *)
Inductive search_filter : Type :=
  | FEq (field value : string)
  | FILike (field pattern : string)
  | FAnd (filters : list search_filter).

(** One retrieved chunk: a dict from column names to values, and, under the
    key ['@scores'], a dict of scores when the service sent one. *)
Record search_result : Type := mk_result {
  sr_columns : gmap string pyval;
  sr_scores : option (gmap string float)
}.

(** [r[key]] on the columns of a result: a missing key is a [KeyError]. *)
Definition getitem (r : search_result) (key : string) : res pyval :=
  match sr_columns r !! key with
  | Some v => inr v
  | None => inl (Exception ("'" +:+ key +:+ "'"))
  end.

(** The search service once resolved: query, columns, filter and limit give
    the ranked results, or the call raises. *)
Definition search_service : Type :=
  string -> list string -> search_filter -> Z -> res (list search_result).

(** ** Configuration *)

Definition DB_NAME : string := "INSURANCE_HACKATHON_DB".
Definition SCHEMA_NAME : string := "PROOF_OF_CONCEPT_SCHEMA".
Definition RAG_SERVICE_NAME : string := "INSURANCE_RAG_SERVICE_2".

Definition MODELS : list string :=
  ["llama3-70b-8192"; "mixtral-8x7b"; "llama2-70b-chat"; "mistral-7b"].

(** ** Session state, the page, and the script monad *)

Record chat_message : Type := mk_message { role : string; content : string }.

(** An uploaded file, by the bytes [getvalue()] returns. *)
Record uploaded_file : Type := mk_upload { getvalue : string }.

(** [st.session_state].  A key the script reads with [.get] or tests with
    [in] is an option: [None] when the key is absent. *)
Record session_state : Type := mk_session {
  messages : option (list chat_message);
  clear_conversation : bool;
  debug : bool;
  selected_insurer : option string;
  selected_plan : option string;
  patient_file_uploader : option uploaded_file;
  model_name : string;
  num_retrieved_chunks : Z;
  current_task : option string
}.

Definition set_messages (ms : list chat_message) (s : session_state)
  : session_state :=
  mk_session (Some ms) (clear_conversation s) (debug s) (selected_insurer s)
    (selected_plan s) (patient_file_uploader s) (model_name s)
    (num_retrieved_chunks s) (current_task s).

Definition set_current_task (t : string) (s : session_state)
  : session_state :=
  mk_session (messages s) (clear_conversation s) (debug s)
    (selected_insurer s) (selected_plan s) (patient_file_uploader s)
    (model_name s) (num_retrieved_chunks s) (Some t).

(** What one run of the script draws, in order. *)
Inductive ui_event : Type :=
  | UiError (msg : string)
  | UiWrite (text : string)
  | UiChat (who : string) (text : string)
  | UiSidebarSubheader (text : string)
  | UiSidebarCaption (text : string)
  | UiSidebarTextArea (label value : string)
  | UiSidebarJson (f : search_filter).

Record world : Type := mk_world { session : session_state; ui : list ui_event }.

(** How a piece of the script ends: it returns, an exception escapes it, or
    [st.stop()] halts the run.  The stop signal is not an [Exception], so no
    [except Exception] clause catches it. *)
Inductive outcome (A : Type) : Type :=
  | Ok (a : A)
  | Raised (e : exn)
  | Stopped.

Arguments Ok {A} a.
Arguments Raised {A} e.
Arguments Stopped {A}.

Definition M (A : Type) : Type := world -> outcome A * world.

Definition ret {A : Type} (a : A) : M A := fun w => (Ok a, w).

Definition bind {A B : Type} (c : M A) (k : A -> M B) : M B :=
  fun w =>
    match c w with
    | (Ok a, w') => k a w'
    | (Raised e, w') => (Raised e, w')
    | (Stopped, w') => (Stopped, w')
    end.

Notation "x <- c ;; k" := (bind c (fun x => k))
  (at level 100, c at next level, right associativity).
Notation "c ;; k" := (bind c (fun _ => k))
  (at level 100, right associativity).

Definition raise {A : Type} (e : exn) : M A := fun w => (Raised e, w).

(** [st.stop()]. *)
Definition st_stop {A : Type} : M A := fun w => (Stopped, w).

Definition lift_res {A : Type} (c : res A) : M A :=
  match c with
  | inl e => raise e
  | inr a => ret a
  end.

(** [try: body  except Exception as e: handler e]. *)
Definition try_except {A : Type} (body : M A) (handler : exn -> M A) : M A :=
  fun w =>
    match body w with
    | (Raised e, w') => handler e w'
    | other => other
    end.

Definition get_session : M session_state := fun w => (Ok (session w), w).

Definition modify_session (f : session_state -> session_state) : M unit :=
  fun w => (Ok tt, mk_world (f (session w)) (ui w)).

Definition emit (ev : ui_event) : M unit :=
  fun w => (Ok tt, mk_world (session w) (ui w ++ [ev])%list).

(** [st.error(msg)]. *)
Definition st_error (msg : string) : M unit := emit (UiError msg).

(** [if b: body]. *)
Definition when (b : bool) (body : M unit) : M unit :=
  if b then body else ret tt.

(** The sidebar text area with this label and this value. *)
Definition is_text_area (label value : string) (ev : ui_event) : bool :=
  match ev with
  | UiSidebarTextArea l v => String.eqb l label && String.eqb v value
  | _ => false
  end.

(** The exception Streamlit raises for a second element with the identity
    of one the run has drawn already. *)
Definition duplicate_element_error : exn :=
  Exception
    ("There are multiple `text_area` elements with the same auto-generated ID. "
     +:+ "When this element is created, it is assigned an internal ID based "
     +:+ "on the element type and provided parameters. Multiple elements "
     +:+ "with the same type and parameters will cause this error."
     +:+ nl +:+ nl
     +:+ "To fix this error, please pass a unique `key` argument to the "
     +:+ "`text_area` element.").

(** [st.sidebar.text_area(label, value, height=...)] with no [key]: the
    identity of the element is computed from its arguments, and Streamlit
    raises when the run has drawn an element with that identity already. *)
Definition st_sidebar_text_area (label value : string) : M unit :=
  fun w =>
    if existsb (is_text_area label value) (ui w)
    then (Raised duplicate_element_error, w)
    else emit (UiSidebarTextArea label value) w.

(** ** Prompt templates *)

(** The labelled block [create_prompt] wraps the extracted patient text in. *)
Definition patient_block (patient_context : string) : string :=
  unlines
      ["";
       "            <PATIENT_CONTEXT>";
       "            Ini adalah laporan medis pasien yang diunggah:"]
    +:+ "            "
    +:+ patient_context
    +:+ unlines
      ["";
       "            </PATIENT_CONTEXT>"]
    +:+ "        ".

Definition general_template
    (policy_context patient_context user_question : string) : string :=
  unlines
      ["";
       "        [INST]";
       "        Anda adalah asisten cerdas yang bertugas menjawab pertanyaan tentang polis asuransi.";
       "        Tugas Anda adalah:";
       "        1. Jawablah PERTANYAAN user menggunakan <POLICY_CONTEXT>.";
       "        2. Jika <PATIENT_CONTEXT> disediakan, gunakan itu untuk informasi tambahan tentang pasien.";
       "        3. Jawablah HANYA berdasarkan informasi yang disediakan.";
       ("        4. Jika <POLICY_CONTEXT> tidak berisi jawaban, jawablah "
        +:+ dq
        +:+ "Informasi tidak ditemukan dalam dokumen polis."
        +:+ dq);
       "        ";
       "        <POLICY_CONTEXT>"]
    +:+ "        "
    +:+ policy_context
    +:+ unlines
      ["";
       "        </POLICY_CONTEXT>"]
    +:+ "        "
    +:+ patient_context
    +:+ unlines
      ["";
       "        ";
       "        <PERTANYAAN>"]
    +:+ "        "
    +:+ user_question
    +:+ unlines
      ["";
       "        </PERTANYAAN>";
       "        [/INST]";
       "        Jawaban:"]
    +:+ "        ".

Definition coverage_template
    (policy_context patient_context user_question : string) : string :=
  unlines
      ["";
       "        [INST]";
       "        Anda adalah asisten analis perlindungan (coverage) asuransi.";
       "        Tugas Anda adalah menentukan apakah prosedur pasien DITANGGUNG atau TIDAK DITANGGUNG.";
       "        1. Periksa <PATIENT_CONTEXT> untuk menemukan prosedur medis yang dijalani pasien (jika ada).";
       "        2. Periksa <POLICY_CONTEXT> untuk menentukan apakah prosedur tersebut ditanggung.";
       ("        3. Jawab HANYA dengan "
        +:+ dq
        +:+ "DITANGGUNG"
        +:+ dq
        +:+ " atau "
        +:+ dq
        +:+ "TIDAK DITANGGUNG"
        +:+ dq
        +:+ " atau "
        +:+ dq
        +:+ "TIDAK DISEBUTKAN"
        +:+ dq
        +:+ ".");
       ("        4. Jika <CONTEXT> menyebutkan syarat, Anda tetap harus menjawab "
        +:+ dq
        +:+ "DITANGGUNG"
        +:+ dq
        +:+ ", lalu berikan penjelasan singkat.");
       "        ";
       "        <POLICY_CONTEXT>"]
    +:+ "        "
    +:+ policy_context
    +:+ unlines
      ["";
       "        </POLICY_CONTEXT>"]
    +:+ "        "
    +:+ patient_context
    +:+ unlines
      ["";
       "        ";
       "        <PERTANYAAN>"]
    +:+ "        "
    +:+ user_question
    +:+ unlines
      ["";
       "        </PERTANYAAN>";
       "        [/INST]";
       "        Jawaban:"]
    +:+ "        ".

Definition copay_template
    (policy_context patient_context user_question : string) : string :=
  unlines
      ["";
       "        [INST]";
       "        Anda adalah asisten ekstraksi data keuangan.";
       "        Tugas Anda adalah menemukan jumlah biaya (co-payment, iuran, deductible).";
       "        1. Gunakan <POLICY_CONTEXT> untuk menemukan jumlah biaya.";
       "        2. Gunakan <PATIENT_CONTEXT> untuk mengidentifikasi prosedur yang ditanyakan.";
       ("        3. Jika <POLICY_CONTEXT> tidak menyebutkan biaya spesifik, jawablah "
        +:+ dq
        +:+ "Informasi biaya tidak ditemukan."
        +:+ dq);
       "        4. JANGAN membuat kalimat panjang. Berikan jawaban yang spesifik.";
       "        ";
       "        <POLICY_CONTEXT>"]
    +:+ "        "
    +:+ policy_context
    +:+ unlines
      ["";
       "        </POLICY_CONTEXT>"]
    +:+ "        "
    +:+ patient_context
    +:+ unlines
      ["";
       "        ";
       "        <PERTANYAAN>"]
    +:+ "        "
    +:+ user_question
    +:+ unlines
      ["";
       "        </PERTANYAAN>";
       "        [/INST]";
       "        Jawaban:"]
    +:+ "        ".
(** ** Sample collaborators and inputs *)

Definition digit_value (c : ascii) : option Z :=
  if is_digit c then Some (Z.of_nat (nat_of_ascii c) - 48) else None.

(** The number a string of decimal digits writes. *)
Fixpoint parse_digits (acc : Z) (s : string) : option Z :=
  match s with
  | "" => Some acc
  | String c s' =>
      match digit_value c with
      | Some d => parse_digits (10 * acc + d) s'
      | None => None
      end
  end.

(** An ISO parser for the plain form [YYYY-MM-DD]; any other text is a
    [ValueError]. *)
Definition sample_fromisoformat (s : string) : res datetime :=
  let bad := inl (Exception ("Invalid isoformat string: '" +:+ s +:+ "'")) in
  if (String.length s =? 10)%nat
     && bool_decide (substring 4 1 s = "-")
     && bool_decide (substring 7 1 s = "-")
  then
    match parse_digits 0 (substring 0 4 s), parse_digits 0 (substring 5 2 s),
          parse_digits 0 (substring 8 2 s) with
    | Some y, Some m, Some d => inr (mkdatetime (mkdate y m d) 0 0 0 0)
    | _, _, _ => bad
    end
  else bad.

Definition sample_today : date := mkdate 2025 11 20.

(** A PDF reader that finds one page of text in a blob starting with the
    PDF marker and rejects every other blob. *)
Definition sample_PdfReader (blob : string) : res (list (res string)) :=
  if bool_decide (substring 0 4 blob = "%PDF")
  then inr [inr "Diagnosis: apendisitis akut"]
  else inl (Exception "EOF marker not found").

Definition broken_pdf : uploaded_file := mk_upload "not a pdf".

(** 0.8731 as a double. *)
Definition score_08731 : float :=
  S754_finite false 7864185669314360 (-53).

Definition sample_chunk : search_result :=
  mk_result
    (<["chunk" := PStr "Rawat inap ditanggung penuh."]>
     (<["relative_path" := PStr "Policy_XYZ.pdf"]>
     (<["file_url" := PStr "https://example.org/Policy_XYZ.pdf"]>
     (<["UPLOAD_DATE" := PStr "2025-11-15"]>
     (<["POLICY_START_DATE" := PNone]> ∅)))))
    (Some (<["cosine_similarity" := score_08731]> ∅)).

(** A chunk with only its text: no title, no link, no scores. *)
Definition bare_chunk : search_result :=
  mk_result (<["chunk" := PStr "Teks polis."]> ∅) None.

Definition sample_service (results : list search_result) : search_service :=
  fun _ _ _ _ => inr results.

Definition failing_service : search_service :=
  fun _ _ _ _ => inl (Exception "invalid filter").

Definition sample_Complete (model prompt : string) : res string :=
  inr "Informasi tidak ditemukan dalam dokumen polis.".

Definition failing_Complete (model prompt : string) : res string :=
  inl (Exception "request timed out").

Fixpoint spaces (n : nat) : string :=
  match n with
  | O => ""
  | S k => String " " (spaces k)
  end.

(** A JSON string literal, for text of printable ASCII: the quote and the
    backslash are escaped. *)
Fixpoint json_escape (s : string) : string :=
  match s with
  | "" => ""
  | String c s' =>
      (if Ascii.eqb c (ascii_of_nat 34) then "\" +:+ dq
       else if Ascii.eqb c "\" then "\\"
       else String c "")
      +:+ json_escape s'
  end.

Definition json_string (s : string) : string := dq +:+ json_escape s +:+ dq.

(** [{op: {field: value}}] printed with [indent=2], the opening brace at
    column [n]. *)
Definition json_predicate (op field value : string) (n : nat) : string :=
  "{" +:+ nl +:+ spaces (n + 2) +:+ json_string op +:+ ": {" +:+ nl
  +:+ spaces (n + 4) +:+ json_string field +:+ ": " +:+ json_string value
  +:+ nl +:+ spaces (n + 2) +:+ "}" +:+ nl +:+ spaces n +:+ "}".

(** [json.dumps(f, indent=2)] for a filter, the opening brace at column
    [n]. *)
Fixpoint json_filter (n : nat) (f : search_filter) : string :=
  match f with
  | FEq field value => json_predicate "@eq" field value n
  | FILike field pattern => json_predicate "@ilike" field pattern n
  | FAnd filters =>
      let items :=
        (fix go (fs : list search_filter) : string :=
           match fs with
           | [] => ""
           | [g] => spaces (n + 4) +:+ json_filter (n + 4) g +:+ nl
           | g :: rest =>
               spaces (n + 4) +:+ json_filter (n + 4) g +:+ "," +:+ nl
               +:+ go rest
           end) filters in
      "{" +:+ nl +:+ spaces (n + 2) +:+ json_string "@and" +:+ ": "
      +:+ match filters with
          | [] => "[]"
          | _ :: _ => "[" +:+ nl +:+ items +:+ spaces (n + 2) +:+ "]"
          end
      +:+ nl +:+ spaces n +:+ "}"
  end.

Definition sample_json_dumps (f : search_filter) : string := json_filter 0 f.

Definition sample_session : session_state :=
  mk_session (Some [mk_message "user" "Halo"; mk_message "assistant" "Hai"])
    false false (Some "Mandiri") (Some "XYZ") None "mistral-7b" 1
    (Some "general").

Definition sample_world : world := mk_world sample_session [].

Definition with_upload (f : uploaded_file) (s : session_state)
  : session_state :=
  mk_session (messages s) (clear_conversation s) (debug s)
    (selected_insurer s) (selected_plan s) (Some f) (model_name s)
    (num_retrieved_chunks s) (current_task s).

Definition sample_question : string := "Apakah rawat inap ditanggung?".

Definition sample_context : string :=
  "Context document 1: Rawat inap ditanggung penuh. " +:+ nl +:+ nl.

(** The sample session with a patient file that is not a PDF. *)
Definition upload_world : world :=
  mk_world (with_upload broken_pdf sample_session) [].

(** Further samples. *)

Definition good_pdf : uploaded_file := mk_upload "%PDF-1.7 laporan".

(** A result that came back without its text. *)
Definition no_text_chunk : search_result :=
  mk_result (<["relative_path" := PStr "Policy_ABC.pdf"]> ∅) None.

(** A reader whose second page cannot be decoded. *)
Definition paged_PdfReader (blob : string) : res (list (res string)) :=
  inr [inr "Halaman 1"; inl (Exception "cannot decode page 2");
       inr "Halaman 3"].

Definition debug_session : session_state :=
  mk_session (messages sample_session) false true
    (selected_insurer sample_session) (selected_plan sample_session) None
    (model_name sample_session) (num_retrieved_chunks sample_session)
    (current_task sample_session).

Definition debug_world : world := mk_world debug_session [].

(** ** The script *)

Section App.

(** The collaborators the script reaches outside itself. *)

(** [datetime.now().date()]. *)
Variable today : date.
(** [datetime.fromisoformat]. *)
Variable fromisoformat : string -> res datetime.
(** [PdfReader(io.BytesIO(bytes)).pages], each page by what its
    [extract_text()] does. *)
Variable PdfReader : string -> res (list (res string)).
(** [root.databases[DB_NAME].schemas[SCHEMA_NAME]
    .cortex_search_services[RAG_SERVICE_NAME]]. *)
Variable cortex_search_service : res search_service.
(** [snowflake.cortex.Complete]. *)
Variable Complete : string -> string -> res string.
(** [json.dumps(f, indent=2)]. *)
Variable json_dumps : search_filter -> string.

(** *** [init_messages] *)

Definition init_messages : M unit :=
  s <- get_session ;;
  when (negb (bool_decide (is_Some (messages s))))
    (modify_session (set_messages [])) ;;
  s <- get_session ;;
  when (clear_conversation s) (modify_session (set_messages [])).

(** [st.session_state.messages.append(m)]. *)
Definition append_message (m : chat_message) : M unit :=
  s <- get_session ;;
  match messages s with
  | Some ms => modify_session (set_messages (ms ++ [m])%list)
  | None =>
      raise (Exception "st.session_state has no attribute 'messages'")
  end.

(** *** [query_cortex_search_service] *)

Definition DEFAULT_COLUMNS : list string :=
  ["chunk"; "file_url"; "relative_path"; "INSURER"; "POLICY_PLAN";
   "UPLOAD_DATE"; "POLICY_START_DATE"].

(** Step 2 of the function: the filter built from the two selections. *)
Definition build_search_filter (insurer plan : string) : search_filter :=
  let search_filters := [FEq "language" "Indonesian"] in
  let search_filters :=
    if str_truthy insurer
    then (search_filters ++ [FEq "INSURER" insurer])%list
    else search_filters in
  let search_filters :=
    if str_truthy plan
    then (search_filters
          ++ [FILike "POLICY_PLAN" ("%" +:+ plan +:+ "%")])%list
    else search_filters in
  FAnd search_filters.

(** Step 4: the loop over [enumerate(results)], [i] counting from 0. *)
Fixpoint format_context (i : Z) (results : list search_result)
    (context_str : string) : res string :=
  match results with
  | [] => inr context_str
  | r :: rest =>
      let? chunk := getitem r "chunk" in
      format_context (i + 1) rest
        (context_str +:+ "Context document " +:+ py_str_int (i + 1)
         +:+ ": " +:+ py_str chunk +:+ " " +:+ nl +:+ nl)
  end.

Definition query_cortex_search_service (query : string)
    (columns : list string) : M (string * list search_result) :=
  svc <- try_except (lift_res cortex_search_service)
           (fun _ =>
              st_error ("Could not find Cortex Search Service '"
                        +:+ RAG_SERVICE_NAME
                        +:+ "'. Please ensure it exists in your schema.") ;;
              st_stop) ;;
  s <- get_session ;;
  let insurer := default "" (selected_insurer s) in
  let plan := default "" (selected_plan s) in
  let search_filter := build_search_filter insurer plan in
  results <- try_except
               (lift_res (svc query columns search_filter
                            (num_retrieved_chunks s)))
               (fun e =>
                  st_error ("Error during search: " +:+ exn_str e) ;;
                  st_error ("Attempted search filter: "
                            +:+ json_dumps search_filter) ;;
                  st_stop) ;;
  context_str <- lift_res (format_context 0 results "") ;;
  when (debug s)
    (emit (UiSidebarSubheader "Debug Info (Search)") ;;
     emit (UiSidebarTextArea "Context documents" context_str) ;;
     emit (UiSidebarCaption "Dynamic Search Filter JSON:") ;;
     emit (UiSidebarJson search_filter)) ;;
  ret (context_str, results).

(** *** [complete] *)

Definition complete (model prompt : string) : M string :=
  lift_res (Complete model prompt).

(** *** [get_text_from_uploaded_pdf] *)

(** The loop [for page in pdf_reader.pages: text += page.extract_text() + "\n"]. *)
Fixpoint extract_pages (pages : list (res string)) (text : string)
    : res string :=
  match pages with
  | [] => inr text
  | page :: rest =>
      let? t := page in
      extract_pages rest (text +:+ t +:+ nl)
  end.

Definition get_text_from_uploaded_pdf (uploaded : option uploaded_file)
    : M string :=
  match uploaded with
  | None => ret ""
  | Some f =>
      try_except
        (lift_res (let? pages := PdfReader (getvalue f) in
                   extract_pages pages ""))
        (fun e =>
           st_error ("Error reading uploaded PDF: " +:+ exn_str e) ;;
           ret "")
  end.

(** *** [create_prompt] *)

(** The dict literal [prompt_templates], its f-strings filled in. *)
Definition prompt_templates
    (policy_context patient_context user_question : string)
    : gmap string string :=
  <["copay" := copay_template policy_context patient_context user_question]>
  (<["coverage" :=
       coverage_template policy_context patient_context user_question]>
  (<["general" :=
       general_template policy_context patient_context user_question]>
   ∅)).

(** [d[key]] on a dict of strings. *)
Definition dict_getitem (d : gmap string string) (key : string)
    : res string :=
  match d !! key with
  | Some v => inr v
  | None => inl (Exception ("'" +:+ key +:+ "'"))
  end.

(** Steps 4 and 5: [prompt_templates.get(current_task,
    prompt_templates["general"])].  The default is evaluated first. *)
Definition select_prompt (current_task : string)
    (policy_context patient_context user_question : string) : res string :=
  let templates :=
    prompt_templates policy_context patient_context user_question in
  let? fallback := dict_getitem templates "general" in
  inr (default fallback (templates !! current_task)).

Definition create_prompt (user_question : string)
    : M (string * list search_result) :=
  found <- query_cortex_search_service user_question DEFAULT_COLUMNS ;;
  let '(policy_context, results) := found in
  s <- get_session ;;
  let uploaded := patient_file_uploader s in
  patient_context <-
    match uploaded with
    | Some _ =>
        text <- get_text_from_uploaded_pdf uploaded ;;
        ret (patient_block text)
    | None => ret ""
    end ;;
  let current_task := default "general" (current_task s) in
  final_prompt <-
    lift_res (select_prompt current_task policy_context patient_context
                user_question) ;;
  when (debug s)
    (emit (UiSidebarSubheader "Full LLM Prompt (Debug)") ;;
     when (bool_decide (is_Some uploaded))
       (emit (UiSidebarCaption "Patient Context (from PDF):") ;;
        emit (UiSidebarTextArea "Patient Context" patient_context)) ;;
     emit (UiSidebarCaption "Final Prompt to LLM:") ;;
     emit (UiSidebarTextArea "LLM Prompt" final_prompt)) ;;
  ret (final_prompt, results).

(** *** [format_date_warning] *)

Definition warning_header : string :=
  "###### Informasi Polis (Policy Info)" +:+ nl.

(** The body of the [try] block: [Some note] where it returns a note,
    [None] where control falls out of the [if]/[elif]. *)
Definition format_date_warning_try (policy_start_date upload_date : pyval)
    : res (option string) :=
  if truthy policy_start_date then
    inr (Some (warning_header +:+ "- Status: **Aktif**" +:+ nl
               +:+ "- Tanggal Berlaku: **" +:+ py_str policy_start_date
               +:+ "**" +:+ nl))
  else if truthy upload_date then
    let? upload_date :=
      match upload_date with
      | PStr s => let? d := fromisoformat s in inr (PDatetime d)
      | other => inr other
      end in
    let? upload_date_only := py_date upload_date in
    let days_ago := date_diff_days today upload_date_only in
    let upload_str := strftime_ymd upload_date_only in
    let days_str :=
      if days_ago =? 0 then "(hari ini)"
      else if days_ago =? 1 then "(1 hari yang lalu)"
      else "(" +:+ py_str_int days_ago +:+ " hari yang lalu)" in
    inr (Some (warning_header
               +:+ "- **PERINGATAN**: Tanggal efektif polis tidak ditemukan."
               +:+ nl
               +:+ "- Dokumen diunggah: **" +:+ upload_str +:+ " "
               +:+ days_str +:+ "**" +:+ nl))
  else inr None.

Definition format_date_warning (policy_start_date upload_date : pyval)
    : string :=
  match format_date_warning_try policy_start_date upload_date with
  | inr (Some note) => note
  | inr None => ""
  | inl e =>
      warning_header +:+ "- Gagal memuat metadata tanggal: " +:+ exn_str e
      +:+ nl
  end.

(** *** [main]: the date note, the references table, one run *)

(** [d.get(key)] on the columns of a result: [None] for a missing key. *)
Definition get_column (r : search_result) (key : string) : pyval :=
  default PNone (sr_columns r !! key).

(** Step 3 of the turn. *)
Definition date_warning_of (results : list search_result) : string :=
  match results with
  | [] => ""
  | first_result :: _ =>
      let policy_start := get_column first_result "POLICY_START_DATE" in
      let upload_date := get_column first_result "UPLOAD_DATE" in
      format_date_warning policy_start upload_date
  end.

Definition table_header : string :=
  "###### Sumber Referensi (References) " +:+ nl +:+ nl
  +:+ "| Dokumen | Link | Similarity |" +:+ nl
  +:+ "|-------|-----|------------|" +:+ nl.

(** The row one pass of the loop appends. *)
Definition citation_row (ref : search_result) : string :=
  let title := default (PStr "N/A") (sr_columns ref !! "relative_path") in
  let url := default (PStr "#") (sr_columns ref !! "file_url") in
  let similarity :=
    default float_zero
      (default ∅ (sr_scores ref) !! "cosine_similarity") in
  "| " +:+ py_str title +:+ " | [Lihat Dokumen](" +:+ py_str url
  +:+ ") | " +:+ format_4f similarity +:+ " |" +:+ nl.

(** Step 4 of the turn. *)
Definition references_table (results : list search_result) : string :=
  let markdown_table := table_header in
  match results with
  | [] => markdown_table
  | _ :: _ =>
      fold_left (fun table ref => table +:+ citation_row ref) results
        markdown_table
  end.

(** Step 5 of the turn. *)
Definition final_output_of (generated_response date_warning_str
    markdown_table : string) : string :=
  generated_response +:+ nl +:+ nl +:+ "---" +:+ nl
  +:+ date_warning_str +:+ nl +:+ markdown_table.

(** What the user did to cause this run of the script. *)
Record run_input : Type := mk_input {
  general_clicked : bool;
  coverage_clicked : bool;
  copay_clicked : bool;
  chat_input : option string
}.

(** The assistant's half of a turn: from [create_prompt] to the message
    recorded in the history.  In debug mode the text area of the prompt is
    the one [create_prompt] has drawn at its step 6, label, value and
    height alike. *)
Definition respond (question : string) : M unit :=
  made <- create_prompt question ;;
  let '(prompt, results) := made in
  s <- get_session ;;
  when (debug s)
    (emit (UiSidebarSubheader "Full LLM Prompt (Debug)") ;;
     st_sidebar_text_area "LLM Prompt" prompt) ;;
  generated_response <-
    try_except (complete (model_name s) prompt)
      (fun e => ret ("Error during LLM completion: " +:+ exn_str e)) ;;
  let date_warning_str := date_warning_of results in
  let markdown_table := references_table results in
  let final_output :=
    final_output_of generated_response date_warning_str markdown_table in
  emit (UiChat "assistant" final_output) ;;
  append_message (mk_message "assistant" final_output).

(** The body of [if question := st.chat_input(...)]. *)
Definition turn (question : string) : M unit :=
  append_message (mk_message "user" question) ;;
  emit (UiChat "user" question) ;;
  respond question.

(** The loop that redraws the history. *)
Fixpoint show_history (ms : list chat_message) : M unit :=
  match ms with
  | [] => ret tt
  | message :: rest =>
      emit (UiChat (role message) (content message)) ;;
      show_history rest
  end.

(** One run of the script.  [init_config_options] only draws the sidebar
    widgets, whose values are the session fields, and is left out. *)
Definition main (input : run_input) : M unit :=
  init_messages ;;
  s <- get_session ;;
  show_history (default [] (messages s)) ;;
  when (negb (bool_decide (is_Some (current_task s))))
    (modify_session (set_current_task "general")) ;;
  emit (UiWrite "Pilih jenis pertanyaan (Select question type):") ;;
  when (general_clicked input)
    (modify_session (set_current_task "general")) ;;
  when (coverage_clicked input)
    (modify_session (set_current_task "coverage")) ;;
  when (copay_clicked input)
    (modify_session (set_current_task "copay")) ;;
  match chat_input input with
  | Some question => when (str_truthy question) (turn question)
  | None => ret tt
  end.

(** *** Notions the properties are stated with *)

(** The calendar day an upload-date value stands for, when it has one: a
    datetime object by its date, a string through [fromisoformat]. *)
Definition upload_day (upload_date : pyval) : option date :=
  match upload_date with
  | PNone => None
  | PStr s =>
      match fromisoformat s with
      | inr dt => Some (dt_date dt)
      | inl _ => None
      end
  | PDatetime dt => Some (dt_date dt)
  end.

(** The note for a chunk that has an upload date but no start date, given
    the day-count phrase. *)
Definition upload_note (upload_day : date) (days_str : string) : string :=
  warning_header
  +:+ "- **PERINGATAN**: Tanggal efektif polis tidak ditemukan." +:+ nl
  +:+ "- Dokumen diunggah: **" +:+ strftime_ymd upload_day +:+ " "
  +:+ days_str +:+ "**" +:+ nl.

(** The texts of a list, one after the other. *)
Definition concat_strings (ls : list string) : string :=
  fold_right String.append "" ls.

(** A float that is a number: not an infinity, not a NaN. *)
Definition float_is_finite (x : float) : bool :=
  match x with
  | S754_zero _ | S754_finite _ _ _ => true
  | S754_infinity _ | S754_nan => false
  end.

(** [split_at_dot s] cuts [s] at its first dot. *)
Fixpoint split_at_dot (s : string) : option (string * string) :=
  match s with
  | "" => None
  | String c s' =>
      if Ascii.eqb c "." then Some ("", s')
      else
        match split_at_dot s' with
        | Some (a, b) => Some (String c a, b)
        | None => None
        end
  end.

(** Digits, a dot, four digits. *)
Definition unsigned_four_decimals (s : string) : bool :=
  match split_at_dot s with
  | Some (int_part, frac) =>
      str_truthy int_part && all_digits int_part
      && (String.length frac =? 4)%nat && all_digits frac
  | None => false
  end.

(** A number written with four decimal places: an optional minus sign,
    one digit or more, a dot, four digits. *)
Definition four_decimals (s : string) : bool :=
  match s with
  | String c s' =>
      if Ascii.eqb c "-" then unsigned_four_decimals s'
      else unsigned_four_decimals s
  | "" => false
  end.

(** [zfill 4 k] is four digits. *)
Definition zfill4_ok (k : Z) : bool :=
  (String.length (zfill 4 k) =? 4)%nat && all_digits (zfill 4 k).

(** A piece of the script that leaves the session state as it found it,
    however it ends. *)
Definition keeps_session {A : Type} (c : M A) : Prop :=
  forall (w w' : world) (o : outcome A),
    c w = (o, w') -> session w' = session w.

(** A piece of the script that always returns, with a value in [P]: it
    neither raises nor stops. *)
Definition returns {A : Type} (P : A -> Prop) (c : M A) : Prop :=
  forall w : world, exists (a : A) (w' : world), c w = (Ok a, w') /\ P a.

(** The message a turn records for the user and for the assistant. *)
Definition user_message (question : string) : chat_message :=
  mk_message "user" question.

Definition assistant_message (final_output : string) : chat_message :=
  mk_message "assistant" final_output.

(** The world a turn hands to [create_prompt]: the question recorded and
    drawn. *)
Definition asked (question : string) (ms : list chat_message) (w : world)
    : world :=
  mk_world (set_messages (ms ++ [user_message question])%list (session w))
    (ui w ++ [UiChat "user" question])%list.

(** The filter a turn searches with, read off the session. *)
Definition session_filter (s : session_state) : search_filter :=
  build_search_filter (default "" (selected_insurer s))
    (default "" (selected_plan s)).

(** What the turn shows for an answer: the completion, or the error text
    put in its place when the completion call raises. *)
Definition answer_of (model prompt : string) : string :=
  match Complete model prompt with
  | inr generated_response => generated_response
  | inl e => "Error during LLM completion: " +:+ exn_str e
  end.

Definition service_missing_error : string :=
  "Could not find Cortex Search Service '" +:+ RAG_SERVICE_NAME
  +:+ "'. Please ensure it exists in your schema.".

(** The error entry that shows the attempted filter. *)
Definition filter_shown (f : search_filter) : ui_event :=
  UiError ("Attempted search filter: " +:+ json_dumps f).

(** *** Notions the further properties are stated with *)

(** What redrawing one message of the history puts on the page. *)
Definition chat_event (m : chat_message) : ui_event :=
  UiChat (role m) (content m).

(** The history a run starts from once [init_messages] is done. *)
Definition initial_messages (s : session_state) : list chat_message :=
  if clear_conversation s then [] else default [] (messages s).

(** The task in force after the three buttons of a run. *)
Definition task_after (input : run_input) (old : option string) : string :=
  if copay_clicked input then "copay"
  else if coverage_clicked input then "coverage"
  else if general_clicked input then "general"
  else default "general" old.

(** The sidebar selections, the uploaded file and the model options. *)
Definition settings (s : session_state)
    : bool * bool * option string * option string * option uploaded_file
      * string * Z :=
  (clear_conversation s, debug s, selected_insurer s, selected_plan s,
   patient_file_uploader s, model_name s, num_retrieved_chunks s).

(** A piece of the script that leaves [f] of the session state as it found
    it, however it ends. *)
Definition preserves {A X : Type} (f : session_state -> X) (c : M A) : Prop :=
  forall (w w' : world) (o : outcome A),
    c w = (o, w') -> f (session w') = f (session w).

(** One entry of the context block, with its ordinal. *)
Definition context_entry (ordinal : Z) (text : pyval) : string :=
  "Context document " +:+ py_str_int ordinal +:+ ": " +:+ py_str text
  +:+ " " +:+ nl +:+ nl.

(** The part every template ends with: the two contexts and the question in
    their tags. *)
Definition prompt_body (policy_context patient_context user_question : string)
    : string :=
  "        <POLICY_CONTEXT>" +:+ nl
  +:+ "        " +:+ policy_context +:+ nl
  +:+ "        </POLICY_CONTEXT>" +:+ nl
  +:+ "        " +:+ patient_context +:+ nl
  +:+ "        " +:+ nl
  +:+ "        <PERTANYAAN>" +:+ nl
  +:+ "        " +:+ user_question +:+ nl
  +:+ "        </PERTANYAAN>" +:+ nl
  +:+ "        [/INST]" +:+ nl
  +:+ "        Jawaban:" +:+ nl
  +:+ "        ".

(** The sidebar entries of debug mode. *)
Definition is_sidebar (ev : ui_event) : bool :=
  match ev with
  | UiSidebarSubheader _ | UiSidebarCaption _ | UiSidebarTextArea _ _
  | UiSidebarJson _ => true
  | UiError _ | UiWrite _ | UiChat _ _ => false
  end.

(** The page without the sidebar entries. *)
Definition main_page (events : list ui_event) : list ui_event :=
  filter (fun ev => is_sidebar ev = false) events.

Definition set_debug (b : bool) (s : session_state) : session_state :=
  mk_session (messages s) (clear_conversation s) b (selected_insurer s)
    (selected_plan s) (patient_file_uploader s) (model_name s)
    (num_retrieved_chunks s) (current_task s).

(** The sidebar entries [query_cortex_search_service] adds in debug mode. *)
Definition search_debug_events (context_str : string) (f : search_filter)
    : list ui_event :=
  [UiSidebarSubheader "Debug Info (Search)";
   UiSidebarTextArea "Context documents" context_str;
   UiSidebarCaption "Dynamic Search Filter JSON:";
   UiSidebarJson f].

(** A result that has its text under the key [chunk]. *)
Definition has_chunk (r : search_result) : Prop :=
  is_Some (sr_columns r !! "chunk").

(** The world a run reaches before it looks at the chat input: the history
    initialised and redrawn, the task set, the task prompt written. *)
Definition started (input : run_input) (w : world) : world :=
  mk_world
    (set_current_task (task_after input (current_task (session w)))
       (set_messages (initial_messages (session w)) (session w)))
    (ui w ++ map chat_event (initial_messages (session w))
     ++ [UiWrite "Pilih jenis pertanyaan (Select question type):"])%list.

(** The session fields a turn has no business with. *)
Definition settings_and_task (s : session_state) :=
  (settings s, current_task s).

(** Two session states that differ at most in the debug toggle. *)
Definition same_but_debug (s1 s2 : session_state) : Prop :=
  set_debug false s1 = set_debug false s2.

(** Two worlds that differ at most in the debug toggle and in what the
    sidebar shows. *)
Definition alike (w1 w2 : world) : Prop :=
  same_but_debug (session w1) (session w2)
  /\ main_page (ui w1) = main_page (ui w2).

(** Two pieces of the script that, started in worlds that are alike, end the
    same way in worlds that are alike. *)
Definition agree {A : Type} (c1 c2 : M A) : Prop :=
  forall w1 w2 : world,
    alike w1 w2 ->
    fst (c1 w1) = fst (c2 w2) /\ alike (snd (c1 w1)) (snd (c2 w2)).

(** A piece of the script that returns and touches the sidebar only. *)
Definition sidebar_only (c : M unit) : Prop :=
  forall w : world,
    exists w' : world,
      c w = (Ok tt, w')
      /\ session w' = session w
      /\ main_page (ui w') = main_page (ui w).

(** The search of a turn cannot run: the service handle does not resolve, or
    the search call raises. *)
Definition search_fails (query : string) (s : session_state) : Prop :=
  (exists e : exn, cortex_search_service = inl e)
  \/ (exists (svc : search_service) (e : exn),
        cortex_search_service = inr svc
        /\ svc query DEFAULT_COLUMNS (session_filter s)
             (num_retrieved_chunks s) = inl e).

(** The search of a turn returns a result that lacks the key [chunk]. *)
Definition text_missing (query : string) (s : session_state) : Prop :=
  exists (svc : search_service) (results : list search_result),
    cortex_search_service = inr svc
    /\ svc query DEFAULT_COLUMNS (session_filter s)
         (num_retrieved_chunks s) = inr results
    /\ Exists (fun r => sr_columns r !! "chunk" = None) results.

(** ** Properties *)

Set Default Proof Using "Type".

(** *** Strings *)

Lemma str_app_assoc (a b c : string) : (a +:+ b) +:+ c = a +:+ b +:+ c.
Proof.
  induction a as [|ch a IH].
  - reflexivity.
  - change (String ch ((a +:+ b) +:+ c) = String ch (a +:+ b +:+ c)).
    f_equal. exact IH.
Qed.

Lemma str_app_nil_r (a : string) : a +:+ "" = a.
Proof.
  induction a as [|ch a IH]; [reflexivity|].
  change (String ch (a +:+ "") = String ch a). f_equal. exact IH.
Qed.

Lemma contains_mid (pre t post : string) : contains (pre +:+ t +:+ post) t.
Proof. exists pre, post. reflexivity. Qed.

Lemma str_truthy_true (s : string) : str_truthy s = true <-> s <> "".
Proof. destruct s; simpl; split; intros; congruence. Qed.

Lemma str_truthy_false (s : string) : str_truthy s = false <-> s = "".
Proof. destruct s; simpl; split; intros; congruence. Qed.

Lemma py_str_int_neg (n : Z) :
  0 < n -> py_str_int (- n) = "-" +:+ py_str_int n.
Proof.
  intros Hn. destruct n as [|p|p]; try lia.
  reflexivity.
Qed.

(** *** The search filter *)

(** C1: the filter is an [@and] over a list of predicates.  A predicate is
    in the list exactly when it is the fixed language equality, or the
    insurer is non-empty and it is the equality on [INSURER] with that
    insurer, or the plan is non-empty and it is the [@ilike] on
    [POLICY_PLAN] with the plan between two [%] marks; and no predicate
    occurs twice. *)
Theorem build_search_filter_predicates (insurer plan : string) :
  exists preds : list search_filter,
    build_search_filter insurer plan = FAnd preds
    /\ NoDup preds
    /\ forall f : search_filter,
         f ∈ preds <->
         f = FEq "language" "Indonesian"
         \/ (insurer <> "" /\ f = FEq "INSURER" insurer)
         \/ (plan <> ""
             /\ f = FILike "POLICY_PLAN" ("%" +:+ plan +:+ "%")).
Proof.
  clear. unfold build_search_filter.
  destruct insurer as [|ci insurer]; destruct plan as [|cp plan];
    simpl; eexists; (split; [reflexivity|]); split.
  all: match goal with
       | |- NoDup _ => repeat (apply NoDup_cons_2 || apply NoDup_nil_2)
       | |- forall _, _ => intros f
       end.
  all: rewrite ?elem_of_cons, ?elem_of_nil; intuition congruence.
Qed.

(** *** The prompt composer *)

(** C4: a task outside general, coverage and copay selects the general
    template, without raising: the result is the one the general task
    gives on the same contexts and question. *)
Theorem select_prompt_unknown_task
    (task policy_context patient_context user_question : string) :
  task <> "general" -> task <> "coverage" -> task <> "copay" ->
  select_prompt task policy_context patient_context user_question
  = inr (general_template policy_context patient_context user_question)
  /\ select_prompt task policy_context patient_context user_question
     = select_prompt "general" policy_context patient_context
         user_question.
Proof.
  intros Hg Hc Hp.
  unfold select_prompt, dict_getitem, prompt_templates, res_bind.
  cbv zeta.
  rewrite (lookup_insert_ne _ "copay" "general") by congruence.
  rewrite (lookup_insert_ne _ "coverage" "general") by congruence.
  rewrite !lookup_insert_eq.
  rewrite !lookup_insert_ne by congruence.
  rewrite lookup_empty.
  split; reflexivity.
Qed.

(** *** The date note *)

Lemma format_date_warning_upload (policy_start_date upload_date : pyval)
    (d : date) :
  truthy policy_start_date = false ->
  truthy upload_date = true ->
  upload_day upload_date = Some d ->
  format_date_warning policy_start_date upload_date
  = upload_note d
      (if date_diff_days today d =? 0 then "(hari ini)"
       else if date_diff_days today d =? 1 then "(1 hari yang lalu)"
       else "(" +:+ py_str_int (date_diff_days today d)
            +:+ " hari yang lalu)").
Proof.
  intros Hps Hud Hday.
  unfold format_date_warning, format_date_warning_try.
  rewrite Hps, Hud.
  destruct upload_date as [|s|dt]; simpl in *.
  - discriminate.
  - destruct (fromisoformat s) as [e|dt]; [discriminate|].
    injection Hday as <-. reflexivity.
  - injection Hday as <-. reflexivity.
Qed.

(** C3: a non-empty start date gives the active note, which contains
    [Aktif] and the date, whatever the upload date is.  With an empty start
    date and a non-empty upload date that stands for the day [d], the note
    shows [d] and a phrase that is [(hari ini)] when [d] is today,
    [(1 hari yang lalu)] when it is one day back and [(N hari yang lalu)]
    when it is [N >= 2] days back.  With both dates empty the note is the
    empty string. *)
Theorem format_date_warning_cases (policy_start_date upload_date : pyval) :
  (truthy policy_start_date = true ->
     format_date_warning policy_start_date upload_date
     = warning_header +:+ "- Status: **Aktif**" +:+ nl
       +:+ "- Tanggal Berlaku: **" +:+ py_str policy_start_date
       +:+ "**" +:+ nl
     /\ contains (format_date_warning policy_start_date upload_date)
          "Aktif"
     /\ contains (format_date_warning policy_start_date upload_date)
          (py_str policy_start_date))
  /\ (truthy policy_start_date = false ->
      truthy upload_date = true ->
      forall d : date,
        upload_day upload_date = Some d ->
        exists days_str : string,
          format_date_warning policy_start_date upload_date
          = upload_note d days_str
          /\ contains (format_date_warning policy_start_date upload_date)
               (strftime_ymd d +:+ " " +:+ days_str)
          /\ (date_diff_days today d = 0 -> days_str = "(hari ini)")
          /\ (date_diff_days today d = 1 ->
              days_str = "(1 hari yang lalu)")
          /\ (forall n : Z,
                2 <= n -> date_diff_days today d = n ->
                days_str = "(" +:+ py_str_int n +:+ " hari yang lalu)"))
  /\ (truthy policy_start_date = false ->
      truthy upload_date = false ->
      format_date_warning policy_start_date upload_date = "").
Proof.
  split; [|split].
  - intros Hps.
    assert (Hnote : format_date_warning policy_start_date upload_date
                    = warning_header +:+ "- Status: **Aktif**" +:+ nl
                      +:+ "- Tanggal Berlaku: **"
                      +:+ py_str policy_start_date +:+ "**" +:+ nl).
    { unfold format_date_warning, format_date_warning_try.
      now rewrite Hps. }
    rewrite Hnote. split; [reflexivity|]. split.
    + exists (warning_header +:+ "- Status: **"),
        ("**" +:+ nl +:+ "- Tanggal Berlaku: **"
         +:+ py_str policy_start_date +:+ "**" +:+ nl).
      reflexivity.
    + exists (warning_header +:+ "- Status: **Aktif**" +:+ nl
              +:+ "- Tanggal Berlaku: **"), ("**" +:+ nl).
      now rewrite !str_app_assoc.
  - intros Hps Hud d Hday.
    rewrite (format_date_warning_upload _ _ d Hps Hud Hday).
    eexists. split; [reflexivity|]. split; [|split; [|split]].
    + unfold upload_note.
      eexists (warning_header
               +:+ "- **PERINGATAN**: Tanggal efektif polis tidak ditemukan."
               +:+ nl +:+ "- Dokumen diunggah: **"), ("**" +:+ nl).
      now rewrite !str_app_assoc.
    + intros ->. reflexivity.
    + intros ->. reflexivity.
    + intros n Hn ->.
      destruct (Z.eqb_spec n 0); [lia|].
      destruct (Z.eqb_spec n 1); [lia|]. reflexivity.
  - intros Hps Hud.
    unfold format_date_warning, format_date_warning_try.
    now rewrite Hps, Hud.
Qed.

(** C10: with an empty start date and a non-empty upload date that stands
    for a day [N >= 2] days after today, the note is the upload note with
    the phrase [(-N hari yang lalu)]; nothing is raised and the date is
    neither refused nor clamped. *)
Theorem format_date_warning_future (policy_start_date upload_date : pyval)
    (d : date) (n : Z) :
  truthy policy_start_date = false ->
  truthy upload_date = true ->
  upload_day upload_date = Some d ->
  date_diff_days d today = n ->
  2 <= n ->
  format_date_warning policy_start_date upload_date
  = upload_note d ("(-" +:+ py_str_int n +:+ " hari yang lalu)").
Proof.
  intros Hps Hud Hday Hdiff Hn.
  rewrite (format_date_warning_upload _ _ d Hps Hud Hday).
  assert (Hneg : date_diff_days today d = - n).
  { unfold date_diff_days in *. lia. }
  rewrite Hneg.
  destruct (Z.eqb_spec (- n) 0); [lia|].
  destruct (Z.eqb_spec (- n) 1); [lia|].
  rewrite py_str_int_neg by lia. reflexivity.
Qed.

(** *** The references table *)

Lemma fold_rows (results : list search_result) (table : string) :
  fold_left (fun t ref => t +:+ citation_row ref) results table
  = table +:+ concat_strings (map citation_row results).
Proof.
  revert table. induction results as [|ref rest IH]; intros table.
  - simpl. now rewrite str_app_nil_r.
  - simpl. rewrite IH. now rewrite str_app_assoc.
Qed.

Lemma all_digits_app (a b : string) :
  all_digits (a +:+ b) = all_digits a && all_digits b.
Proof.
  induction a as [|c a IH]; [reflexivity|].
  change (all_digits (String c (a +:+ b))
          = all_digits (String c a) && all_digits b).
  simpl. rewrite IH. now rewrite andb_assoc.
Qed.

Lemma string_of_uint_digits (d : Decimal.uint) :
  all_digits (NilEmpty.string_of_uint d) = true.
Proof. induction d; simpl; auto. Qed.

Lemma py_str_int_digits (n : Z) :
  0 <= n ->
  all_digits (py_str_int n) = true /\ str_truthy (py_str_int n) = true.
Proof.
  intros Hn. unfold py_str_int.
  destruct n as [|p|p]; [split; reflexivity| |lia].
  simpl. generalize (Pos.to_uint p). intros d.
  destruct d; simpl; auto using string_of_uint_digits.
Qed.

Lemma split_at_dot_digits (a b : string) :
  all_digits a = true -> split_at_dot (a +:+ "." +:+ b) = Some (a, b).
Proof.
  induction a as [|c a IH]; intros Ha; [reflexivity|].
  change (split_at_dot (String c (a +:+ "." +:+ b)) = Some (String c a, b)).
  simpl in Ha. apply andb_prop in Ha as [Hc Ha].
  simpl. destruct (Ascii.eqb_spec c ".") as [->|_]; [discriminate|].
  now rewrite (IH Ha).
Qed.

Lemma zfill4_digits (k : Z) : 0 <= k < 10000 -> zfill4_ok k = true.
Proof.
  intros Hk.
  assert (Hall : forallb zfill4_ok (seqZ 0 10000) = true)
    by (vm_compute; reflexivity).
  rewrite forallb_forall in Hall. apply Hall.
  apply list_elem_of_In, elem_of_seqZ. lia.
Qed.

Lemma div_round_half_even_nonneg (a b : Z) :
  0 <= a -> 0 < b -> 0 <= div_round_half_even a b.
Proof.
  intros Ha Hb. unfold div_round_half_even.
  assert (0 <= a / b) by (apply Z.div_pos; lia).
  repeat match goal with |- context [if ?c then _ else _] => destruct c end;
    lia.
Qed.

Lemma scaled4_nonneg (m : positive) (e : Z) : 0 <= scaled4 m e.
Proof.
  unfold scaled4. destruct (Z.leb_spec 0 e).
  - assert (0 < 2 ^ e) by (apply Z.pow_pos_nonneg; lia). nia.
  - apply div_round_half_even_nonneg; [lia|].
    apply Z.pow_pos_nonneg; lia.
Qed.

Lemma unsigned_four_decimals_scaled (n : Z) :
  0 <= n ->
  all_digits (py_str_int (n / 10000)) = true
  /\ str_truthy (py_str_int (n / 10000)) = true
  /\ unsigned_four_decimals
       (py_str_int (n / 10000) +:+ "." +:+ zfill 4 (n mod 10000))
     = true.
Proof.
  intros Hn.
  assert (Hq : 0 <= n / 10000) by (apply Z.div_pos; lia).
  assert (Hr : 0 <= n mod 10000 < 10000) by (apply Z.mod_pos_bound; lia).
  destruct (py_str_int_digits _ Hq) as [Hd Hne].
  pose proof (zfill4_digits _ Hr) as Hz. unfold zfill4_ok in Hz.
  repeat split; try assumption.
  unfold unsigned_four_decimals.
  rewrite (split_at_dot_digits _ _ Hd), Hne, Hd. exact Hz.
Qed.

Lemma format_4f_four_decimals (x : float) :
  float_is_finite x = true -> four_decimals (format_4f x) = true.
Proof.
  destruct x as [s|s| |s m e]; try discriminate; intros _.
  - destruct s; reflexivity.
  - unfold format_4f. cbv zeta.
    destruct (unsigned_four_decimals_scaled _ (scaled4_nonneg m e))
      as (Hd & Hne & H).
    revert Hd Hne H.
    generalize (zfill 4 (scaled4 m e mod 10000)).
    generalize (py_str_int (scaled4 m e / 10000)).
    intros int_part frac Hd Hne H.
    destruct s.
    + change ("-" +:+ int_part +:+ "." +:+ frac)
        with (String "-" (int_part +:+ "." +:+ frac)).
      exact H.
    + destruct int_part as [|c rest]; [discriminate|].
      change ("" +:+ String c rest +:+ "." +:+ frac)
        with (String c (rest +:+ "." +:+ frac)).
      change (String c rest +:+ "." +:+ frac)
        with (String c (rest +:+ "." +:+ frac)) in H.
      simpl in Hd. apply andb_prop in Hd as [Hc _].
      unfold four_decimals.
      destruct (Ascii.eqb_spec c "-") as [->|_]; [discriminate|].
      exact H.
Qed.

(** C5: the table is the header followed by one row per chunk, in chunk
    order, and the header alone for no chunk.  A row shows the title, or
    [N/A] when the chunk has none; the link, or [#] when it has none; and
    the similarity in [.4f] format, 0.0 (printed [0.0000]) when it has
    none.  The [.4f] format of a finite score has four decimal places. *)
Theorem references_table_rows (results : list search_result) :
  references_table results
  = table_header +:+ concat_strings (map citation_row results)
  /\ length (map citation_row results) = length results
  /\ references_table [] = table_header
  /\ (forall ref : search_result,
        citation_row ref
        = "| "
          +:+ match sr_columns ref !! "relative_path" with
              | Some title => py_str title
              | None => "N/A"
              end
          +:+ " | [Lihat Dokumen]("
          +:+ match sr_columns ref !! "file_url" with
              | Some url => py_str url
              | None => "#"
              end
          +:+ ") | "
          +:+ format_4f
                match sr_scores ref with
                | Some scores =>
                    match scores !! "cosine_similarity" with
                    | Some similarity => similarity
                    | None => float_zero
                    end
                | None => float_zero
                end
          +:+ " |" +:+ nl)
  /\ format_4f float_zero = "0.0000"
  /\ (forall x : float,
        float_is_finite x = true -> four_decimals (format_4f x) = true).
Proof.
  split; [|split; [|split; [|split; [|split]]]].
  - unfold references_table.
    destruct results as [|ref rest].
    + simpl. now rewrite str_app_nil_r.
    + apply fold_rows.
  - apply length_map.
  - reflexivity.
  - intros ref. unfold citation_row.
    destruct (sr_columns ref !! "relative_path");
      destruct (sr_columns ref !! "file_url");
      destruct (sr_scores ref) as [scores|]; simpl;
      try rewrite lookup_empty;
      try destruct (scores !! "cosine_similarity"); reflexivity.
  - reflexivity.
  - exact format_4f_four_decimals.
Qed.

(** *** The script monad *)

Lemma keeps_ret {A : Type} (a : A) : keeps_session (ret a).
Proof. intros w w' o H. injection H as _ <-. reflexivity. Qed.

Lemma keeps_raise {A : Type} (e : exn) : keeps_session (@raise A e).
Proof. intros w w' o H. injection H as _ <-. reflexivity. Qed.

Lemma keeps_stop {A : Type} : keeps_session (@st_stop A).
Proof. intros w w' o H. injection H as _ <-. reflexivity. Qed.

Lemma keeps_get_session : keeps_session get_session.
Proof. intros w w' o H. injection H as _ <-. reflexivity. Qed.

Lemma keeps_emit (ev : ui_event) : keeps_session (emit ev).
Proof. intros w w' o H. injection H as _ <-. reflexivity. Qed.

Lemma keeps_text_area (label value : string) :
  keeps_session (st_sidebar_text_area label value).
Proof.
  intros w w' o H. unfold st_sidebar_text_area in H.
  destruct (existsb _ (ui w)); injection H as _ <-; reflexivity.
Qed.

Lemma keeps_lift_res {A : Type} (c : res A) : keeps_session (lift_res c).
Proof. destruct c; [apply keeps_raise | apply keeps_ret]. Qed.

Lemma keeps_bind {A B : Type} (c : M A) (k : A -> M B) :
  keeps_session c -> (forall a, keeps_session (k a)) ->
  keeps_session (bind c k).
Proof.
  intros Hc Hk w w' o H. unfold bind in H.
  destruct (c w) as [[a|e|] w1] eqn:Hcw.
  - rewrite (Hk a _ _ _ H). exact (Hc _ _ _ Hcw).
  - injection H as _ <-. exact (Hc _ _ _ Hcw).
  - injection H as _ <-. exact (Hc _ _ _ Hcw).
Qed.

Lemma keeps_try_except {A : Type} (body : M A) (handler : exn -> M A) :
  keeps_session body -> (forall e, keeps_session (handler e)) ->
  keeps_session (try_except body handler).
Proof.
  intros Hb Hh w w' o H. unfold try_except in H.
  destruct (body w) as [[a|e|] w1] eqn:Hbw.
  - injection H as _ <-. exact (Hb _ _ _ Hbw).
  - rewrite (Hh e _ _ _ H). exact (Hb _ _ _ Hbw).
  - injection H as _ <-. exact (Hb _ _ _ Hbw).
Qed.

Lemma keeps_when (b : bool) (body : M unit) :
  keeps_session body -> keeps_session (when b body).
Proof. destruct b; [auto | intros _; apply keeps_ret]. Qed.

Create HintDb keeps.

Hint Resolve keeps_ret keeps_raise keeps_stop keeps_get_session keeps_emit
  keeps_text_area
  keeps_lift_res keeps_when : keeps.

Ltac keeps :=
  repeat first
    [ apply keeps_bind; [|intros ?]
    | apply keeps_try_except; [|intros ?]
    | apply keeps_when
    | progress auto with keeps ].

Lemma keeps_get_text (uploaded : option uploaded_file) :
  keeps_session (get_text_from_uploaded_pdf uploaded).
Proof.
  destruct uploaded as [f|]; unfold get_text_from_uploaded_pdf.
  - unfold st_error. keeps.
  - apply keeps_ret.
Qed.

Lemma keeps_query (query : string) (columns : list string) :
  keeps_session (query_cortex_search_service query columns).
Proof. unfold query_cortex_search_service, st_error. keeps. Qed.

Lemma keeps_create_prompt (question : string) :
  keeps_session (create_prompt question).
Proof.
  unfold create_prompt.
  apply keeps_bind; [apply keeps_query|]. intros [policy_context results].
  apply keeps_bind; [apply keeps_get_session|]. intros s.
  apply keeps_bind.
  - destruct (patient_file_uploader s); [|apply keeps_ret].
    apply keeps_bind; [apply keeps_get_text|]. intros text. apply keeps_ret.
  - intros patient_context. keeps.
Qed.

(** *** The patient-context extractor *)

(** What [PdfReader] and the page loop make of an uploaded file. *)
Lemma get_text_run (f : uploaded_file) (w : world) :
  get_text_from_uploaded_pdf (Some f) w
  = match (let? pages := PdfReader (getvalue f) in extract_pages pages "")
    with
    | inr text => (Ok text, w)
    | inl e =>
        (Ok "",
         mk_world (session w)
           (ui w ++ [UiError ("Error reading uploaded PDF: "
                              +:+ exn_str e)])%list)
    end.
Proof.
  unfold get_text_from_uploaded_pdf, try_except, lift_res.
  destruct (let? pages := PdfReader (getvalue f) in extract_pages pages "");
    reflexivity.
Qed.

Lemma get_text_ok (uploaded : option uploaded_file) (w : world) :
  exists (text : string) (w' : world),
    get_text_from_uploaded_pdf uploaded w = (Ok text, w')
    /\ session w' = session w.
Proof.
  destruct uploaded as [f|].
  - rewrite get_text_run.
    destruct (let? pages := PdfReader (getvalue f) in extract_pages pages "");
      eexists _, _; split; reflexivity.
  - exists "", w. split; reflexivity.
Qed.

(** C8: the extractor always returns a text.  With no file the text is
    empty and nothing else happens; when reading the file raises, the text
    is empty and the error is shown; in no case does an exception or a stop
    leave the function. *)
Theorem get_text_never_raises (uploaded : option uploaded_file)
    (w : world) :
  exists (text : string) (w' : world),
    get_text_from_uploaded_pdf uploaded w = (Ok text, w')
    /\ session w' = session w
    /\ (uploaded = None -> text = "" /\ w' = w)
    /\ (forall (f : uploaded_file) (e : exn),
          uploaded = Some f ->
          (let? pages := PdfReader (getvalue f) in extract_pages pages "")
          = inl e ->
          text = ""
          /\ ui w'
             = (ui w ++ [UiError ("Error reading uploaded PDF: "
                                  +:+ exn_str e)])%list).
Proof.
  destruct uploaded as [f|].
  - rewrite get_text_run.
    destruct (let? pages := PdfReader (getvalue f) in extract_pages pages "")
      as [e|text] eqn:Hread.
    + eexists _, _. split; [reflexivity|]. split; [reflexivity|].
      split; [discriminate|].
      intros f' e' Hf He. injection Hf as <-.
      rewrite Hread in He. injection He as <-. split; reflexivity.
    + eexists _, _. split; [reflexivity|]. split; [reflexivity|].
      split; [discriminate|].
      intros f' e' Hf He. injection Hf as <-.
      rewrite Hread in He. discriminate.
  - exists "", w. split; [reflexivity|]. split; [reflexivity|].
    split; [now split | discriminate].
Qed.

(** *** The prompt *)

Lemma select_prompt_template
    (task policy_context patient_context user_question : string) :
  exists prompt : string,
    select_prompt task policy_context patient_context user_question
    = inr prompt
    /\ (prompt
        = general_template policy_context patient_context user_question
        \/ prompt
           = coverage_template policy_context patient_context user_question
        \/ prompt
           = copay_template policy_context patient_context user_question).
Proof.
  unfold select_prompt, dict_getitem, prompt_templates, res_bind.
  cbv zeta.
  rewrite (lookup_insert_ne _ "copay" "general") by congruence.
  rewrite (lookup_insert_ne _ "coverage" "general") by congruence.
  rewrite !lookup_insert_eq.
  eexists. split; [reflexivity|].
  destruct (decide (task = "copay")) as [->|Hcopay].
  { rewrite lookup_insert_eq. auto. }
  rewrite (lookup_insert_ne _ "copay" task) by congruence.
  destruct (decide (task = "coverage")) as [->|Hcoverage].
  { rewrite lookup_insert_eq. auto. }
  rewrite (lookup_insert_ne _ "coverage" task) by congruence.
  destruct (decide (task = "general")) as [->|Hgeneral].
  { rewrite lookup_insert_eq. auto. }
  rewrite (lookup_insert_ne _ "general" task) by congruence.
  rewrite lookup_empty. auto.
Qed.

Lemma templates_contain_patient
    (policy_context patient_context user_question : string) :
  contains (general_template policy_context patient_context user_question)
    patient_context
  /\ contains
       (coverage_template policy_context patient_context user_question)
       patient_context
  /\ contains (copay_template policy_context patient_context user_question)
       patient_context.
Proof.
  unfold general_template, coverage_template, copay_template.
  repeat split.
  all: match goal with
       | |- contains (?a +:+ ?b +:+ ?c +:+ ?d +:+ ?e +:+ ?p +:+ ?rest) _ =>
           exists (a +:+ b +:+ c +:+ d +:+ e), rest
       end.
  all: now rewrite !str_app_assoc.
Qed.

Lemma select_prompt_contains_patient
    (task policy_context patient_context user_question prompt : string) :
  select_prompt task policy_context patient_context user_question
  = inr prompt ->
  contains prompt patient_context.
Proof.
  intros H.
  destruct (select_prompt_template task policy_context patient_context
              user_question) as (p & Hp & Hcases).
  rewrite Hp in H. injection H as <-.
  destruct (templates_contain_patient policy_context patient_context
              user_question) as (Hg & Hc & Hy).
  destruct Hcases as [->|[->| ->]]; assumption.
Qed.

Lemma patient_block_nonempty (text : string) : patient_block text <> "".
Proof. unfold patient_block. discriminate. Qed.

(** C2, as the code has it: a prompt that [create_prompt] returns is the
    template of the current task filled with the retrieved policy context,
    a patient text and the question, and it contains that patient text.
    The patient text is the labelled block around whatever the extractor
    returned, the empty text too, when a file is uploaded, and the empty
    string when no file is uploaded. *)
Theorem create_prompt_patient_block (question prompt : string)
    (results : list search_result) (w w2 : world) :
  create_prompt question w = (Ok (prompt, results), w2) ->
  exists (policy_context patient_context : string) (wq : world),
    query_cortex_search_service question DEFAULT_COLUMNS w
    = (Ok (policy_context, results), wq)
    /\ select_prompt (default "general" (current_task (session w)))
         policy_context patient_context question
       = inr prompt
    /\ contains prompt patient_context
    /\ match patient_file_uploader (session w) with
       | Some f =>
           exists (text : string) (w1 : world),
             get_text_from_uploaded_pdf (Some f) wq = (Ok text, w1)
             /\ patient_context = patient_block text
             /\ patient_context <> ""
       | None => patient_context = ""
       end.
Proof.
  intros H. unfold create_prompt, bind in H.
  destruct (query_cortex_search_service question DEFAULT_COLUMNS w)
    as [[[policy_context rs]|e|] wq] eqn:Hq; try discriminate.
  pose proof (keeps_query _ _ _ _ _ Hq) as Hs.
  unfold get_session in H. cbn [session] in H. rewrite Hs in H.
  destruct (patient_file_uploader (session w)) as [f|] eqn:Hup.
  - destruct (get_text_ok (Some f) wq) as (text & w1 & Ht & Hs1).
    rewrite Ht in H. unfold ret at 1 in H.
    destruct (lift_res _ w1) as [[p|e|] w3] eqn:Hsel; try discriminate.
    destruct (select_prompt_template
                (default "general" (current_task (session w)))
                policy_context (patient_block text) question)
      as (p' & Hp' & _).
    rewrite Hp' in Hsel. injection Hsel as <- <-.
    destruct (when _ _ w1) as [[[]|e|] w4]; try discriminate.
    injection H as <- <- _.
    exists policy_context, (patient_block text), wq.
    repeat split; try assumption.
    + eapply select_prompt_contains_patient; eassumption.
    + exists text, w1. repeat split; try assumption.
      apply patient_block_nonempty.
  - unfold ret at 1 in H.
    destruct (lift_res _ wq) as [[p|e|] w3] eqn:Hsel; try discriminate.
    destruct (select_prompt_template
                (default "general" (current_task (session w)))
                policy_context "" question)
      as (p' & Hp' & _).
    rewrite Hp' in Hsel. injection Hsel as <- <-.
    destruct (when _ _ wq) as [[[]|e|] w4]; try discriminate.
    injection H as <- <- _.
    exists policy_context, "", wq.
    repeat split; try assumption.
    eapply select_prompt_contains_patient; eassumption.
Qed.

(** *** Retrieval *)

Lemma query_service_missing (query : string) (columns : list string)
    (e : exn) (w : world) :
  cortex_search_service = inl e ->
  query_cortex_search_service query columns w
  = (Stopped,
     mk_world (session w) (ui w ++ [UiError service_missing_error])%list).
Proof.
  intros H. unfold query_cortex_search_service, bind, try_except.
  rewrite H. reflexivity.
Qed.

Lemma query_search_raises (query : string) (columns : list string)
    (svc : search_service) (e : exn) (w : world) :
  cortex_search_service = inr svc ->
  svc query columns (session_filter (session w))
    (num_retrieved_chunks (session w)) = inl e ->
  query_cortex_search_service query columns w
  = (Stopped,
     mk_world (session w)
       (ui w ++ [UiError ("Error during search: " +:+ exn_str e);
                 filter_shown (session_filter (session w))])%list).
Proof.
  intros Hsvc Hsearch.
  unfold query_cortex_search_service, bind, try_except.
  rewrite Hsvc. cbn. unfold session_filter in Hsearch. rewrite Hsearch.
  cbn. now rewrite <- app_assoc.
Qed.

Lemma query_ok (query : string) (columns : list string)
    (svc : search_service) (results : list search_result)
    (context_str : string) (w : world) :
  cortex_search_service = inr svc ->
  svc query columns (session_filter (session w))
    (num_retrieved_chunks (session w)) = inr results ->
  format_context 0 results "" = inr context_str ->
  exists wq : world,
    query_cortex_search_service query columns w
    = (Ok (context_str, results), wq).
Proof.
  intros Hsvc Hsearch Hctx.
  unfold query_cortex_search_service, bind, try_except.
  rewrite Hsvc. cbn. unfold session_filter in Hsearch. rewrite Hsearch.
  cbn. rewrite Hctx. cbn.
  destruct (debug (session w)); cbn; eexists; reflexivity.
Qed.

Lemma create_prompt_stopped (question : string) (w w' : world) :
  query_cortex_search_service question DEFAULT_COLUMNS w = (Stopped, w') ->
  create_prompt question w = (Stopped, w').
Proof. intros H. unfold create_prompt, bind. now rewrite H. Qed.

Lemma returns_ret {A : Type} (P : A -> Prop) (a : A) :
  P a -> returns P (ret a).
Proof. intros HP w. exists a, w. split; [reflexivity | exact HP]. Qed.

Lemma returns_get_session : returns (fun _ => True) get_session.
Proof. intros w. exists (session w), w. split; [reflexivity | exact I]. Qed.

Lemma returns_emit (ev : ui_event) : returns (fun _ => True) (emit ev).
Proof. intros w. eexists tt, _. split; [reflexivity | exact I]. Qed.

Lemma returns_bind {A B : Type} (P : A -> Prop) (Q : B -> Prop)
    (c : M A) (k : A -> M B) :
  returns P c -> (forall a, P a -> returns Q (k a)) ->
  returns Q (bind c k).
Proof.
  intros Hc Hk w. destruct (Hc w) as (a & w1 & Hcw & HP).
  destruct (Hk a HP w1) as (b & w2 & Hkw & HQ).
  exists b, w2. unfold bind. rewrite Hcw. split; assumption.
Qed.

Lemma returns_when (b : bool) (body : M unit) :
  returns (fun _ => True) body -> returns (fun _ => True) (when b body).
Proof. destruct b; [auto | intros _; now apply returns_ret]. Qed.

Lemma returns_get_text (uploaded : option uploaded_file) :
  returns (fun _ => True) (get_text_from_uploaded_pdf uploaded).
Proof.
  intros w. destruct (get_text_ok uploaded w) as (text & w' & H & _).
  exists text, w'. split; [exact H | exact I].
Qed.

Lemma returns_select_prompt
    (task policy_context patient_context user_question : string) :
  returns (fun _ => True)
    (lift_res (select_prompt task policy_context patient_context
                 user_question)).
Proof.
  destruct (select_prompt_template task policy_context patient_context
              user_question) as (p & Hp & _).
  rewrite Hp. now apply returns_ret.
Qed.

Ltac returns :=
  repeat first
    [ apply returns_get_session
    | apply returns_emit
    | apply returns_get_text
    | apply returns_select_prompt
    | apply returns_when
    | apply returns_ret; try exact I
    | eapply returns_bind; [|intros ? _] ].

Lemma create_prompt_ok (question policy_context : string)
    (results : list search_result) (w wq : world) :
  query_cortex_search_service question DEFAULT_COLUMNS w
  = (Ok (policy_context, results), wq) ->
  exists (prompt : string) (w2 : world),
    create_prompt question w = (Ok (prompt, results), w2).
Proof.
  intros Hq. unfold create_prompt. unfold bind at 1. rewrite Hq.
  cbv beta iota.
  assert (Hr : returns (fun made : string * list search_result =>
                          snd made = results)
                 (s <- get_session ;;
                  let uploaded := patient_file_uploader s in
                  patient_context <-
                    match uploaded with
                    | Some _ =>
                        text <- get_text_from_uploaded_pdf uploaded ;;
                        ret (patient_block text)
                    | None => ret ""
                    end ;;
                  let current_task := default "general" (current_task s) in
                  final_prompt <-
                    lift_res (select_prompt current_task policy_context
                                patient_context question) ;;
                  when (debug s)
                    (emit (UiSidebarSubheader "Full LLM Prompt (Debug)") ;;
                     when (bool_decide (is_Some uploaded))
                       (emit (UiSidebarCaption
                                "Patient Context (from PDF):") ;;
                        emit (UiSidebarTextArea "Patient Context"
                                patient_context)) ;;
                     emit (UiSidebarCaption "Final Prompt to LLM:") ;;
                     emit (UiSidebarTextArea "LLM Prompt" final_prompt)) ;;
                  ret (final_prompt, results))).
  { eapply returns_bind; [apply returns_get_session|]. intros s _.
    cbv zeta.
    eapply returns_bind with (P := fun _ => True).
    { destruct (patient_file_uploader s); returns. }
    intros patient_context _. returns. reflexivity. }
  destruct (Hr wq) as ([prompt rs] & w2 & Hrun & Hrs).
  simpl in Hrs. subst rs. exists prompt, w2. exact Hrun.
Qed.

(** *** The turn *)

Lemma turn_asked (question : string) (ms : list chat_message) (w : world) :
  messages (session w) = Some ms ->
  turn question w = respond question (asked question ms w).
Proof.
  intros Hms. unfold turn, append_message, bind, get_session.
  rewrite Hms. reflexivity.
Qed.

Lemma respond_run (question prompt : string)
    (results : list search_result) (ms : list chat_message)
    (w1 w2 : world) :
  create_prompt question w1 = (Ok (prompt, results), w2) ->
  messages (session w1) = Some ms ->
  debug (session w1) = false ->
  exists w3 : world,
    respond question w1 = (Ok tt, w3)
    /\ messages (session w3)
       = Some (ms ++ [assistant_message
                        (final_output_of
                           (answer_of (model_name (session w1)) prompt)
                           (date_warning_of results)
                           (references_table results))])%list
    /\ last (ui w3)
       = Some (UiChat "assistant"
                 (final_output_of
                    (answer_of (model_name (session w1)) prompt)
                    (date_warning_of results)
                    (references_table results))).
Proof.
  intros Hc Hms Hdebug.
  pose proof (keeps_create_prompt _ _ _ _ Hc) as Hs.
  unfold respond. unfold bind at 1. rewrite Hc. cbv beta iota.
  unfold bind, get_session, try_except, complete, answer_of, lift_res,
    append_message.
  rewrite <- Hs in Hms, Hdebug |- *.
  rewrite Hdebug. cbn.
  destruct (Complete (model_name (session w2)) prompt); cbn;
    rewrite Hms; cbn; eexists; (split; [reflexivity|]);
    (split; [reflexivity|]); apply last_snoc.
Qed.

(** C6: when the completion call of a turn raises [e], the turn still
    returns.  The history grows by two entries, the user's message and then
    the assistant's, and the assistant's message is the assembled text
    with the completion-error line in the place of the answer.  The call is
    made with debug off only: with debug on the turn ends before it, at the
    second text area of the prompt. *)
Theorem turn_completion_failure (question prompt : string)
    (results : list search_result) (ms : list chat_message) (e : exn)
    (w w2 : world) :
  messages (session w) = Some ms ->
  debug (session w) = false ->
  create_prompt question (asked question ms w)
  = (Ok (prompt, results), w2) ->
  Complete (model_name (session w)) prompt = inl e ->
  exists (final_output : string) (ms' : list chat_message) (w' : world),
    turn question w = (Ok tt, w')
    /\ final_output
       = final_output_of ("Error during LLM completion: " +:+ exn_str e)
           (date_warning_of results) (references_table results)
    /\ contains final_output "Error during LLM completion: "
    /\ messages (session w') = Some ms'
    /\ ms' = (ms ++ [user_message question;
                     assistant_message final_output])%list
    /\ length ms' = (length ms + 2)%nat.
Proof.
  intros Hms Hdebug Hc He.
  rewrite (turn_asked _ _ _ Hms).
  destruct (respond_run _ _ _ (ms ++ [user_message question])%list _ _ Hc)
    as (w' & Hrun & Hms' & _); [reflexivity | exact Hdebug |].
  unfold answer_of in Hms'. cbn [asked session set_messages model_name]
    in Hms'.
  rewrite He in Hms'. rewrite <- app_assoc in Hms'.
  eexists _, _, w'. split; [exact Hrun|]. split; [reflexivity|].
  split; [|split; [exact Hms'|split; [reflexivity|]]].
  - exists "", (exn_str e +:+ nl +:+ nl +:+ "---" +:+ nl
                +:+ date_warning_of results +:+ nl
                +:+ references_table results).
    unfold final_output_of. now rewrite !str_app_assoc.
  - rewrite length_app. reflexivity.
Qed.

(** C7, as the code has it: a turn whose search cannot run stops, with the
    user's message recorded and drawn and nothing after it but the
    diagnostics; no answer is drawn and no assistant message is recorded.
    When the service handle cannot be resolved the one diagnostic names
    the missing service.  When the search call raises [e], the
    diagnostics are the error [e] and then the attempted filter. *)
Theorem turn_search_failure (question : string) (ms : list chat_message)
    (w : world) :
  messages (session w) = Some ms ->
  (forall e : exn,
     cortex_search_service = inl e ->
     turn question w
     = (Stopped,
        mk_world
          (set_messages (ms ++ [user_message question])%list (session w))
          (ui w ++ [UiChat "user" question;
                    UiError service_missing_error])%list))
  /\ (forall (svc : search_service) (e : exn),
        cortex_search_service = inr svc ->
        svc question DEFAULT_COLUMNS (session_filter (session w))
          (num_retrieved_chunks (session w)) = inl e ->
        turn question w
        = (Stopped,
           mk_world
             (set_messages (ms ++ [user_message question])%list
                (session w))
             (ui w ++ [UiChat "user" question;
                       UiError ("Error during search: " +:+ exn_str e);
                       filter_shown (session_filter (session w))])%list)).
Proof.
  intros Hms. split.
  - intros e Hsvc. rewrite (turn_asked _ _ _ Hms).
    unfold respond. unfold bind at 1.
    rewrite (create_prompt_stopped _ _ _
               (query_service_missing _ _ _ _ Hsvc)).
    cbn. now rewrite <- app_assoc.
  - intros svc e Hsvc Hsearch. rewrite (turn_asked _ _ _ Hms).
    unfold respond. unfold bind at 1.
    rewrite (create_prompt_stopped _ _ _
               (query_search_raises _ _ _ _ (asked question ms w)
                  Hsvc Hsearch)).
    cbn. now rewrite <- app_assoc.
Qed.

(** C9: when the search of a turn returns no chunk, the date note of the
    assembled text is the empty string: with debug off the turn returns,
    and the recorded and drawn text is the answer, the separator, an empty
    line where the note goes, and the header of the references table.
    (With debug on no text is assembled: the turn ends at the second text
    area of the prompt.) *)
Theorem turn_empty_results (question : string) (ms : list chat_message)
    (svc : search_service) (w : world) :
  messages (session w) = Some ms ->
  debug (session w) = false ->
  cortex_search_service = inr svc ->
  svc question DEFAULT_COLUMNS (session_filter (session w))
    (num_retrieved_chunks (session w)) = inr [] ->
  exists (answer : string) (w' : world),
    turn question w = (Ok tt, w')
    /\ date_warning_of [] = ""
    /\ messages (session w')
       = Some (ms ++ [user_message question;
                      assistant_message
                        (answer +:+ nl +:+ nl +:+ "---" +:+ nl +:+ nl
                         +:+ table_header)])%list
    /\ last (ui w')
       = Some (UiChat "assistant"
                 (answer +:+ nl +:+ nl +:+ "---" +:+ nl +:+ nl
                  +:+ table_header)).
Proof.
  intros Hms Hdebug Hsvc Hsearch.
  rewrite (turn_asked _ _ _ Hms).
  destruct (query_ok question DEFAULT_COLUMNS svc [] ""
              (asked question ms w) Hsvc Hsearch eq_refl) as (wq & Hq).
  destruct (create_prompt_ok _ _ _ _ _ Hq) as (prompt & w2 & Hc).
  destruct (respond_run _ _ _ (ms ++ [user_message question])%list _ _ Hc)
    as (w' & Hrun & Hms' & Hui); [reflexivity | exact Hdebug |].
  rewrite <- app_assoc in Hms'.
  exists (answer_of (model_name (session (asked question ms w))) prompt),
    w'.
  split; [exact Hrun|]. split; [reflexivity|].
  split; [exact Hms' | exact Hui].
Qed.
(** *** Further properties: the history *)

Lemma show_history_run (ms : list chat_message) (w : world) :
  show_history ms w
  = (Ok tt, mk_world (session w) (ui w ++ map chat_event ms)%list).
Proof.
  revert w. induction ms as [|m rest IH]; intros w.
  - cbn. rewrite app_nil_r. now destruct w.
  - cbn [show_history]. unfold bind, emit. rewrite IH. cbn.
    now rewrite <- app_assoc.
Qed.

Lemma init_messages_world (w : world) :
  init_messages w
  = (Ok tt,
     mk_world (set_messages (initial_messages (session w)) (session w))
       (ui w)).
Proof.
  destruct w as [s u]. destruct s as [ms clear dbg ins plan up model k task].
  unfold init_messages, initial_messages, bind, get_session, when,
    modify_session, ret.
  destruct ms as [ms|]; destruct clear; reflexivity.
Qed.

(** X1: [init_messages] always returns and draws nothing.  With the clear
    toggle on, the history is empty afterwards whatever it held; with the
    toggle off, a history that exists is kept as it is and a missing one
    starts empty.  No other session field changes. *)
Theorem init_messages_effect (w : world) :
  exists w' : world,
    init_messages w = (Ok tt, w')
    /\ ui w' = ui w
    /\ (clear_conversation (session w) = true ->
        messages (session w') = Some [])
    /\ (clear_conversation (session w) = false ->
        forall ms : list chat_message,
          messages (session w) = Some ms ->
          messages (session w') = Some ms)
    /\ (clear_conversation (session w) = false ->
        messages (session w) = None -> messages (session w') = Some [])
    /\ settings (session w') = settings (session w)
    /\ current_task (session w') = current_task (session w).
Proof.
  eexists. split; [apply init_messages_world|]. cbn.
  unfold initial_messages.
  repeat split.
  - now intros ->.
  - intros -> ms ->. reflexivity.
  - intros -> ->. reflexivity.
Qed.

(** *** Further properties: retrieval *)

Lemma format_context_entries (results : list search_result) (i : Z)
    (acc : string) :
  Forall has_chunk results ->
  format_context i results acc
  = inr (acc
         +:+ concat_strings
               (imap (fun k r =>
                        context_entry (i + Z.of_nat k + 1)
                          (get_column r "chunk")) results)).
Proof.
  revert i acc. induction results as [|r rest IH]; intros i acc Hall.
  - cbn. now rewrite str_app_nil_r.
  - apply Forall_cons in Hall as [[v Hv] Hrest].
    cbn [format_context]. unfold getitem, res_bind. rewrite Hv.
    rewrite (IH _ _ Hrest). f_equal.
    rewrite imap_cons. cbn [concat_strings fold_right].
    unfold get_column at 2. rewrite Hv. cbn [default].
    rewrite str_app_assoc. unfold context_entry at 2.
    replace (i + Z.of_nat 0 + 1) with (i + 1) by lia.
    rewrite !str_app_assoc. do 8 f_equal.
    unfold concat_strings. f_equal.
    apply imap_ext. intros k x _. cbn. f_equal. lia.
Qed.

Lemma format_context_missing (results : list search_result) (i : Z)
    (acc : string) :
  Exists (fun r => sr_columns r !! "chunk" = None) results ->
  format_context i results acc = inl (Exception "'chunk'").
Proof.
  revert i acc. induction results as [|r rest IH]; intros i acc Hex.
  - inversion Hex.
  - cbn [format_context]. unfold getitem, res_bind.
    destruct (sr_columns r !! "chunk") as [v|] eqn:Hv; [|reflexivity].
    apply IH. inversion Hex as [? ? Hhead|? ? Htail]; subst.
    + congruence.
    + exact Htail.
Qed.

Lemma query_success (query context_str : string) (columns : list string)
    (svc : search_service) (results : list search_result) (w : world) :
  cortex_search_service = inr svc ->
  svc query columns (session_filter (session w))
    (num_retrieved_chunks (session w)) = inr results ->
  format_context 0 results "" = inr context_str ->
  query_cortex_search_service query columns w
  = (Ok (context_str, results),
     mk_world (session w)
       (ui w ++ (if debug (session w)
                 then search_debug_events context_str
                        (session_filter (session w))
                 else []))%list).
Proof.
  intros Hsvc Hsearch Hctx.
  unfold query_cortex_search_service, bind, try_except.
  rewrite Hsvc. cbn. unfold session_filter in Hsearch. rewrite Hsearch.
  cbn. rewrite Hctx. cbn.
  destruct (debug (session w)); cbn.
  - now rewrite <- !app_assoc.
  - rewrite app_nil_r. now destruct w.
Qed.

Lemma query_key_error (query : string) (columns : list string)
    (svc : search_service) (results : list search_result) (e : exn)
    (w : world) :
  cortex_search_service = inr svc ->
  svc query columns (session_filter (session w))
    (num_retrieved_chunks (session w)) = inr results ->
  format_context 0 results "" = inl e ->
  query_cortex_search_service query columns w = (Raised e, w).
Proof.
  intros Hsvc Hsearch Hctx.
  unfold query_cortex_search_service, bind, try_except.
  rewrite Hsvc. cbn. unfold session_filter in Hsearch. rewrite Hsearch.
  cbn. rewrite Hctx. cbn. now destruct w.
Qed.

(** X2: when the service resolves and the search returns results that all
    have their text, the retriever returns those results unchanged and in
    order, with a context block that holds one entry per result, labelled
    [Context document 1], [2], ... in result order.  The session is left as
    it was, and the page gets the four sidebar entries of debug mode when
    debug is on and nothing otherwise. *)
Theorem query_returns_labelled_context (query : string)
    (columns : list string) (svc : search_service)
    (results : list search_result) (w : world) :
  cortex_search_service = inr svc ->
  svc query columns (session_filter (session w))
    (num_retrieved_chunks (session w)) = inr results ->
  Forall has_chunk results ->
  exists context_str : string,
    context_str
    = concat_strings
        (imap (fun k r =>
                 context_entry (Z.of_nat k + 1) (get_column r "chunk"))
           results)
    /\ query_cortex_search_service query columns w
       = (Ok (context_str, results),
          mk_world (session w)
            (ui w ++ (if debug (session w)
                      then search_debug_events context_str
                             (session_filter (session w))
                      else []))%list).
Proof.
  intros Hsvc Hsearch Hall.
  eexists. split; [reflexivity|].
  apply (query_success _ _ _ svc); try assumption.
  now rewrite (format_context_entries _ 0 "" Hall).
Qed.

(** X3: when the search returns a result without the key [chunk], the
    [KeyError] of the context loop is caught nowhere: the turn ends with
    that exception, the user's message stays recorded and drawn, and no
    assistant message is recorded or drawn. *)
Theorem turn_missing_chunk_key (question : string)
    (ms : list chat_message) (svc : search_service)
    (results : list search_result) (w : world) :
  messages (session w) = Some ms ->
  cortex_search_service = inr svc ->
  svc question DEFAULT_COLUMNS (session_filter (session w))
    (num_retrieved_chunks (session w)) = inr results ->
  Exists (fun r => sr_columns r !! "chunk" = None) results ->
  turn question w = (Raised (Exception "'chunk'"), asked question ms w).
Proof.
  intros Hms Hsvc Hsearch Hex.
  rewrite (turn_asked _ _ _ Hms).
  unfold respond, create_prompt. unfold bind.
  rewrite (query_key_error question DEFAULT_COLUMNS svc results
             (Exception "'chunk'") (asked question ms w) Hsvc Hsearch
             (format_context_missing _ _ _ Hex)).
  reflexivity.
Qed.

(** *** Further properties: the date note *)

Lemma warning_header_nonempty (rest : string) : warning_header +:+ rest <> "".
Proof. unfold warning_header. discriminate. Qed.

(** X4: with an empty start date and an upload date that is a non-empty
    string [fromisoformat] rejects with [e], nothing is raised: the note is
    the header followed by the line that reports [e]. *)
Theorem format_date_warning_parse_error (policy_start_date : pyval)
    (s : string) (e : exn) :
  truthy policy_start_date = false ->
  s <> "" ->
  fromisoformat s = inl e ->
  format_date_warning policy_start_date (PStr s)
  = warning_header +:+ "- Gagal memuat metadata tanggal: " +:+ exn_str e
    +:+ nl.
Proof.
  intros Hps Hs He.
  unfold format_date_warning, format_date_warning_try.
  rewrite Hps. cbn [truthy].
  apply str_truthy_true in Hs. rewrite Hs.
  unfold res_bind. rewrite He. reflexivity.
Qed.

(** X5: the note is the empty string exactly when both dates are empty, and
    every note that is not empty starts with the policy-info header. *)
Theorem format_date_warning_shape (policy_start_date upload_date : pyval) :
  (format_date_warning policy_start_date upload_date = ""
   <-> truthy policy_start_date = false /\ truthy upload_date = false)
  /\ (format_date_warning policy_start_date upload_date = ""
      \/ exists rest : string,
           format_date_warning policy_start_date upload_date
           = warning_header +:+ rest).
Proof.
  assert (Hfull : forall rest : string,
            (warning_header +:+ rest = "" <-> false = false /\ true = false)
            /\ (warning_header +:+ rest = ""
                \/ exists rest' : string,
                     warning_header +:+ rest = warning_header +:+ rest')).
  { intros rest. split; [|right; eexists; reflexivity].
    split; [intros H; now apply warning_header_nonempty in H|].
    intros [_ ?]; discriminate. }
  unfold format_date_warning, format_date_warning_try.
  destruct (truthy policy_start_date) eqn:Hps.
  { split; [|right; eexists; reflexivity].
    split; [intros H; now apply warning_header_nonempty in H|].
    intros [? _]; discriminate. }
  destruct upload_date as [|s|dt]; cbn [truthy].
  - split; [|left; reflexivity]. split; auto.
  - destruct (str_truthy s).
    + unfold res_bind. destruct (fromisoformat s); apply Hfull.
    + split; [|left; reflexivity]. split; auto.
  - apply Hfull.
Qed.

(** *** Further properties: the patient file *)

Lemma extract_pages_all (texts : list string) (acc : string) :
  extract_pages (map (@inr exn string) texts) acc
  = inr (acc +:+ concat_strings (map (fun t => t +:+ nl) texts)).
Proof.
  revert acc. induction texts as [|t rest IH]; intros acc.
  - cbn. now rewrite str_app_nil_r.
  - cbn [map extract_pages]. unfold res_bind. rewrite IH.
    cbn [concat_strings fold_right]. now rewrite !str_app_assoc.
Qed.

Lemma extract_pages_first_error (texts : list string) (e : exn)
    (rest : list (res string)) (acc : string) :
  extract_pages (map (@inr exn string) texts ++ inl e :: rest)%list acc
  = inl e.
Proof.
  revert acc. induction texts as [|t more IH]; intros acc.
  - reflexivity.
  - cbn [map app extract_pages]. unfold res_bind. apply IH.
Qed.

(** X6: when the reader opens the file and every page gives its text, the
    extractor returns the page texts in document order, each followed by a
    line break, and shows nothing. *)
Theorem get_text_joins_pages (f : uploaded_file) (texts : list string)
    (w : world) :
  PdfReader (getvalue f) = inr (map (@inr exn string) texts) ->
  get_text_from_uploaded_pdf (Some f) w
  = (Ok (concat_strings (map (fun t => t +:+ nl) texts)), w).
Proof.
  intros Hread. rewrite get_text_run. unfold res_bind at 1. rewrite Hread.
  now rewrite extract_pages_all.
Qed.

(** X7: when a page raises [e] after earlier pages gave their text, the
    extractor drops the text read so far: it returns the empty text and
    shows the error of the first failing page. *)
Theorem get_text_drops_partial_text (f : uploaded_file)
    (texts : list string) (e : exn) (rest : list (res string)) (w : world) :
  PdfReader (getvalue f)
  = inr (map (@inr exn string) texts ++ inl e :: rest)%list ->
  get_text_from_uploaded_pdf (Some f) w
  = (Ok "",
     mk_world (session w)
       (ui w ++ [UiError ("Error reading uploaded PDF: " +:+ exn_str e)])%list).
Proof.
  intros Hread. rewrite get_text_run. unfold res_bind at 1. rewrite Hread.
  now rewrite extract_pages_first_error.
Qed.

(** *** Further properties: the prompt *)

(** X8: for every task there is one instruction text such that, whatever
    the contexts and the question are, the prompt is that text followed by
    the same tagged layout: the policy context, the patient context and the
    question between their tags, in this order. *)
Theorem prompt_is_instructions_then_body (task : string) :
  exists instructions : string,
    forall policy_context patient_context user_question : string,
      select_prompt task policy_context patient_context user_question
      = inr (instructions
             +:+ prompt_body policy_context patient_context user_question).
Proof.
  pose (head_of := fun template : string -> string -> string -> string =>
          substring 0
            (String.length (template "" "" "")
             - String.length (prompt_body "" "" ""))
            (template "" "" "")).
  assert (Hg : forall pc pt q,
             general_template pc pt q
             = head_of general_template +:+ prompt_body pc pt q)
    by (intros; vm_compute; reflexivity).
  assert (Hc : forall pc pt q,
             coverage_template pc pt q
             = head_of coverage_template +:+ prompt_body pc pt q)
    by (intros; vm_compute; reflexivity).
  assert (Hy : forall pc pt q,
             copay_template pc pt q
             = head_of copay_template +:+ prompt_body pc pt q)
    by (intros; vm_compute; reflexivity).
  assert (Hsel : forall pc pt q,
    select_prompt task pc pt q
    = inr (if decide (task = "copay") then copay_template pc pt q
           else if decide (task = "coverage") then coverage_template pc pt q
           else general_template pc pt q)).
  { intros pc pt q.
    unfold select_prompt, dict_getitem, prompt_templates, res_bind.
    cbv zeta.
    rewrite (lookup_insert_ne _ "copay" "general") by congruence.
    rewrite (lookup_insert_ne _ "coverage" "general") by congruence.
    rewrite !lookup_insert_eq.
    destruct (decide (task = "copay")) as [->|Hcopay].
    { now rewrite lookup_insert_eq. }
    rewrite (lookup_insert_ne _ "copay" task) by congruence.
    destruct (decide (task = "coverage")) as [->|Hcoverage].
    { now rewrite lookup_insert_eq. }
    rewrite (lookup_insert_ne _ "coverage" task) by congruence.
    destruct (decide (task = "general")) as [->|Hgeneral].
    { now rewrite lookup_insert_eq. }
    rewrite (lookup_insert_ne _ "general" task) by congruence.
    now rewrite lookup_empty. }
  destruct (decide (task = "copay")).
  { exists (head_of copay_template). intros. now rewrite Hsel, Hy. }
  destruct (decide (task = "coverage")).
  { exists (head_of coverage_template). intros. now rewrite Hsel, Hc. }
  exists (head_of general_template). intros. now rewrite Hsel, Hg.
Qed.

(** *** Further properties: the turn *)

(** X9: with debug off, when the completion call of a turn returns
    [answer], the turn returns, the history grows by the user's message and
    the assistant's message, and the assistant's message is the answer, the
    separator, the date note and the references table in this order; the
    last thing drawn is that same text. *)
Theorem turn_records_what_it_draws (question prompt answer : string)
    (results : list search_result) (ms : list chat_message)
    (w w2 : world) :
  messages (session w) = Some ms ->
  debug (session w) = false ->
  create_prompt question (asked question ms w)
  = (Ok (prompt, results), w2) ->
  Complete (model_name (session w)) prompt = inr answer ->
  exists w' : world,
    turn question w = (Ok tt, w')
    /\ messages (session w')
       = Some (ms ++ [user_message question;
                      assistant_message
                        (answer +:+ nl +:+ nl +:+ "---" +:+ nl
                         +:+ date_warning_of results +:+ nl
                         +:+ references_table results)])%list
    /\ last (ui w')
       = Some (UiChat "assistant"
                 (answer +:+ nl +:+ nl +:+ "---" +:+ nl
                  +:+ date_warning_of results +:+ nl
                  +:+ references_table results)).
Proof.
  intros Hms Hdebug Hc Ha.
  rewrite (turn_asked _ _ _ Hms).
  destruct (respond_run _ _ _ (ms ++ [user_message question])%list _ _ Hc)
    as (w' & Hrun & Hms' & Hui); [reflexivity | exact Hdebug |].
  unfold answer_of in Hms', Hui.
  cbn [asked session set_messages model_name] in Hms', Hui.
  rewrite Ha in Hms', Hui. rewrite <- app_assoc in Hms'.
  exists w'. split; [exact Hrun|]. split; [exact Hms' | exact Hui].
Qed.

(** *** Further properties: one run of the script *)

Lemma main_started (input : run_input) (w : world) :
  main input w
  = match chat_input input with
    | Some question => when (str_truthy question) (turn question)
    | None => ret tt
    end (started input w).
Proof.
  unfold main. unfold bind at 1. rewrite init_messages_world.
  unfold bind at 1. unfold get_session at 1. cbn [session ui].
  unfold bind at 1. cbn [set_messages messages default].
  rewrite show_history_run. cbn [session ui].
  unfold started, task_after.
  destruct w as [s u]. destruct s as [ms clear dbg ins plan up model k task].
  destruct input as [bg bc by_ ci].
  cbn [session ui current_task set_messages general_clicked
       coverage_clicked copay_clicked chat_input].
  destruct task as [t|]; destruct bg, bc, by_;
    cbn; rewrite <- ?app_assoc; reflexivity.
Qed.

(** X10: a run with no question (no chat input, or an empty one) returns
    without asking anything of the search or completion services: it leaves
    the initialised history as the history, and draws that history in order
    followed by the task prompt. *)
Theorem main_without_question (input : run_input) (w : world) :
  chat_input input = None \/ chat_input input = Some "" ->
  exists w' : world,
    main input w = (Ok tt, w')
    /\ messages (session w') = Some (initial_messages (session w))
    /\ ui w'
       = (ui w ++ map chat_event (initial_messages (session w))
          ++ [UiWrite "Pilih jenis pertanyaan (Select question type):"])%list.
Proof.
  intros Hinput. exists (started input w).
  rewrite main_started.
  destruct Hinput as [-> | ->]; repeat split; reflexivity.
Qed.

Lemma create_prompt_draws_prompt (question prompt : string)
    (results : list search_result) (w w2 : world) :
  create_prompt question w = (Ok (prompt, results), w2) ->
  debug (session w) = true ->
  exists before : list ui_event,
    ui w2 = (before ++ [UiSidebarTextArea "LLM Prompt" prompt])%list.
Proof.
  intros H Hdebug. unfold create_prompt, bind in H.
  destruct (query_cortex_search_service question DEFAULT_COLUMNS w)
    as [[[policy_context rs]|e|] wq] eqn:Hq; try discriminate.
  pose proof (keeps_query _ _ _ _ _ Hq) as Hs.
  unfold get_session in H. cbn [session] in H. rewrite Hs, Hdebug in H.
  assert (Hrest : forall (patient_context : string) (w1 : world),
    (let (o, w') :=
       lift_res
         (select_prompt (default "general" (current_task (session w)))
            policy_context patient_context question) w1 in
     match o with
     | Ok final_prompt =>
         let (o0, w'0) :=
           when true
             (emit (UiSidebarSubheader "Full LLM Prompt (Debug)") ;;
              when (bool_decide (is_Some (patient_file_uploader (session w))))
                (emit (UiSidebarCaption "Patient Context (from PDF):") ;;
                 emit (UiSidebarTextArea "Patient Context" patient_context)) ;;
              emit (UiSidebarCaption "Final Prompt to LLM:") ;;
              emit (UiSidebarTextArea "LLM Prompt" final_prompt)) w' in
         match o0 with
         | Ok _ => ret (final_prompt, rs) w'0
         | Raised e => (Raised e, w'0)
         | Stopped => (Stopped, w'0)
         end
     | Raised e => (Raised e, w')
     | Stopped => (Stopped, w')
     end) = (Ok (prompt, results), w2) ->
    exists before : list ui_event,
      ui w2 = (before ++ [UiSidebarTextArea "LLM Prompt" prompt])%list).
  { intros patient_context w1.
    destruct (select_prompt_template
                (default "general" (current_task (session w)))
                policy_context patient_context question) as (p & Hp & _).
    rewrite Hp. cbn.
    destruct (bool_decide _); cbn; intros Hrun;
      injection Hrun as <- _ <-; eexists; reflexivity. }
  destruct (patient_file_uploader (session w)) as [f|] eqn:Hup.
  - destruct (get_text_ok (Some f) wq) as (text & w1 & Ht & _).
    rewrite Ht in H. unfold ret at 1 in H.
    exact (Hrest _ _ H).
  - unfold ret at 1 in H. exact (Hrest _ _ H).
Qed.

Lemma respond_debug_raises (question prompt : string)
    (results : list search_result) (w1 w2 : world) :
  create_prompt question w1 = (Ok (prompt, results), w2) ->
  debug (session w1) = true ->
  respond question w1
  = (Raised duplicate_element_error,
     mk_world (session w2)
       (ui w2 ++ [UiSidebarSubheader "Full LLM Prompt (Debug)"])%list).
Proof.
  intros Hc Hdebug.
  destruct (create_prompt_draws_prompt _ _ _ _ _ Hc Hdebug) as (before & Hui).
  pose proof (keeps_create_prompt _ _ _ _ Hc) as Hs.
  assert (Hdup : existsb (is_text_area "LLM Prompt" prompt)
                   (ui w2 ++ [UiSidebarSubheader "Full LLM Prompt (Debug)"])
                 = true).
  { rewrite Hui, !existsb_app. cbn.
    rewrite String.eqb_refl. now rewrite orb_true_r. }
  unfold respond. unfold bind at 1. rewrite Hc. cbv beta iota.
  unfold bind at 1. unfold get_session. cbn [session].
  rewrite Hs, Hdebug. cbn [when].
  unfold bind, emit, st_sidebar_text_area. cbn [ui session].
  rewrite Hdup. now rewrite Hs.
Qed.

Lemma respond_messages (question : string) (ms : list chat_message)
    (w1 w3 : world) (o : outcome unit) :
  respond question w1 = (o, w3) ->
  messages (session w1) = Some ms ->
  messages (session w3) = Some ms
  \/ exists final_output : string,
       messages (session w3)
       = Some (ms ++ [assistant_message final_output])%list.
Proof.
  intros Hrun Hms.
  destruct (create_prompt question w1) as [[[prompt results]|e|] w2] eqn:Hc.
  - destruct (debug (session w1)) eqn:Hdebug.
    + rewrite (respond_debug_raises _ _ _ _ _ Hc Hdebug) in Hrun.
      injection Hrun as _ <-. left. cbn [session].
      now rewrite (keeps_create_prompt _ _ _ _ Hc).
    + destruct (respond_run _ _ _ _ _ _ Hc Hms Hdebug)
        as (w' & Hrun' & Hms' & _).
      rewrite Hrun' in Hrun. injection Hrun as _ <-.
      right. eexists. exact Hms'.
  - unfold respond in Hrun. unfold bind at 1 in Hrun. rewrite Hc in Hrun.
    injection Hrun as _ <-. left.
    now rewrite (keeps_create_prompt _ _ _ _ Hc).
  - unfold respond in Hrun. unfold bind at 1 in Hrun. rewrite Hc in Hrun.
    injection Hrun as _ <-. left.
    now rewrite (keeps_create_prompt _ _ _ _ Hc).
Qed.

(** X11: however a run ends (it returns, it stops, or an exception leaves
    it), the history afterwards is the initialised history followed by
    nothing, by the user's question, or by the user's question and one
    assistant message: a run never drops or rewrites an earlier entry and
    never adds more than these two. *)
Theorem main_history_append_only (input : run_input) (w w' : world)
    (o : outcome unit) :
  main input w = (o, w') ->
  exists extra : list chat_message,
    messages (session w')
    = Some (initial_messages (session w) ++ extra)%list
    /\ (extra = []
        \/ exists question : string,
             chat_input input = Some question
             /\ (extra = [user_message question]
                 \/ exists final_output : string,
                      extra = [user_message question;
                               assistant_message final_output])).
Proof.
  rewrite main_started. intros Hrun.
  assert (Hstart : messages (session (started input w))
                   = Some (initial_messages (session w))) by reflexivity.
  destruct (chat_input input) as [question|].
  2: { injection Hrun as _ <-. exists []. rewrite app_nil_r. auto. }
  destruct (str_truthy question).
  2: { injection Hrun as _ <-. exists []. rewrite app_nil_r. auto. }
  cbn [when] in Hrun. rewrite (turn_asked _ _ _ Hstart) in Hrun.
  destruct (respond_messages _ (initial_messages (session w)
                                ++ [user_message question])%list _ _ _ Hrun)
    as [Hms | (final_output & Hms)]; [reflexivity| |].
  - exists [user_message question]. split; [exact Hms|].
    right. exists question. auto.
  - exists [user_message question; assistant_message final_output].
    rewrite <- app_assoc in Hms. split; [exact Hms|].
    right. exists question. split; [reflexivity|]. right. now eexists.
Qed.

Lemma preserves_of_keeps {A X : Type} (f : session_state -> X) (c : M A) :
  keeps_session c -> preserves f c.
Proof. intros Hc w w' o H. now rewrite (Hc _ _ _ H). Qed.

Lemma preserves_bind {A B X : Type} (f : session_state -> X) (c : M A)
    (k : A -> M B) :
  preserves f c -> (forall a, preserves f (k a)) -> preserves f (bind c k).
Proof.
  intros Hc Hk w w' o H. unfold bind in H.
  destruct (c w) as [[a|e|] w1] eqn:Hcw.
  - rewrite (Hk a _ _ _ H). exact (Hc _ _ _ Hcw).
  - injection H as _ <-. exact (Hc _ _ _ Hcw).
  - injection H as _ <-. exact (Hc _ _ _ Hcw).
Qed.

Lemma preserves_try_except {A X : Type} (f : session_state -> X)
    (body : M A) (handler : exn -> M A) :
  preserves f body -> (forall e, preserves f (handler e)) ->
  preserves f (try_except body handler).
Proof.
  intros Hb Hh w w' o H. unfold try_except in H.
  destruct (body w) as [[a|e|] w1] eqn:Hbw.
  - injection H as _ <-. exact (Hb _ _ _ Hbw).
  - rewrite (Hh e _ _ _ H). exact (Hb _ _ _ Hbw).
  - injection H as _ <-. exact (Hb _ _ _ Hbw).
Qed.

Lemma preserves_when {X : Type} (f : session_state -> X) (b : bool)
    (body : M unit) :
  preserves f body -> preserves f (when b body).
Proof.
  destruct b; [auto|]. intros _. apply preserves_of_keeps, keeps_ret.
Qed.

Lemma preserves_append_message (m : chat_message) :
  preserves settings_and_task (append_message m).
Proof.
  intros w w' o H. unfold append_message, bind, get_session in H.
  destruct (messages (session w)); injection H as _ <-; reflexivity.
Qed.

Lemma preserves_turn (question : string) :
  preserves settings_and_task (turn question).
Proof.
  unfold turn, respond.
  apply preserves_bind; [apply preserves_append_message|]. intros _.
  apply preserves_bind; [apply preserves_of_keeps, keeps_emit|]. intros _.
  apply preserves_bind; [apply preserves_of_keeps, keeps_create_prompt|].
  intros [prompt results].
  apply preserves_bind; [apply preserves_of_keeps, keeps_get_session|].
  intros s.
  apply preserves_bind.
  { apply preserves_when, preserves_of_keeps. keeps. }
  intros _. apply preserves_bind.
  { apply preserves_of_keeps. unfold complete. keeps. }
  intros generated_response. cbv zeta.
  apply preserves_bind; [apply preserves_of_keeps, keeps_emit|]. intros _.
  apply preserves_append_message.
Qed.

(** X12: however a run ends, the task in force afterwards is the one of the
    last button pressed in the order general, coverage, copay, and with no
    button pressed the task it had before, [general] when it had none; the
    sidebar selections, the uploaded file and the model options are what
    they were. *)
Theorem main_task_and_settings (input : run_input) (w w' : world)
    (o : outcome unit) :
  main input w = (o, w') ->
  current_task (session w')
  = Some (task_after input (current_task (session w)))
  /\ settings (session w') = settings (session w).
Proof.
  rewrite main_started. intros Hrun.
  assert (Hkeep : settings_and_task (session w')
                  = settings_and_task (session (started input w))).
  { destruct (chat_input input) as [question|].
    - revert Hrun. apply preserves_when, preserves_turn.
    - now injection Hrun as _ <-. }
  unfold settings_and_task in Hkeep.
  apply pair_equal_spec in Hkeep as [Hsettings Htask].
  split; [exact Htask | exact Hsettings].
Qed.

(** *** Further properties: debug mode *)

Lemma main_page_app (u v : list ui_event) :
  main_page (u ++ v) = (main_page u ++ main_page v)%list.
Proof. apply filter_app. Qed.

Lemma agree_ret {A : Type} (a : A) : agree (ret a) (ret a).
Proof. intros w1 w2 H. split; [reflexivity | exact H]. Qed.

Lemma agree_raise {A : Type} (e : exn) : agree (@raise A e) (raise e).
Proof. intros w1 w2 H. split; [reflexivity | exact H]. Qed.

Lemma agree_stop {A : Type} : agree (@st_stop A) st_stop.
Proof. intros w1 w2 H. split; [reflexivity | exact H]. Qed.

Lemma agree_lift_res {A : Type} (c : res A) : agree (lift_res c) (lift_res c).
Proof. destruct c; [apply agree_raise | apply agree_ret]. Qed.

Lemma agree_emit (ev : ui_event) : agree (emit ev) (emit ev).
Proof.
  intros w1 w2 [Hs Hu]. split; [reflexivity|]. split; [exact Hs|].
  cbn. rewrite !main_page_app. now rewrite Hu.
Qed.

Lemma agree_bind {A B : Type} (c1 c2 : M A) (k1 k2 : A -> M B) :
  agree c1 c2 -> (forall a, agree (k1 a) (k2 a)) ->
  agree (bind c1 k1) (bind c2 k2).
Proof.
  intros Hc Hk w1 w2 Hal. unfold bind.
  specialize (Hc w1 w2 Hal).
  destruct (c1 w1) as [o1 w1'], (c2 w2) as [o2 w2'].
  cbn in Hc. destruct Hc as [-> Hal'].
  destruct o2 as [a|e|]; [apply Hk; exact Hal' | |]; split; auto.
Qed.

Lemma agree_try_except {A : Type} (b1 b2 : M A) (h1 h2 : exn -> M A) :
  agree b1 b2 -> (forall e, agree (h1 e) (h2 e)) ->
  agree (try_except b1 h1) (try_except b2 h2).
Proof.
  intros Hb Hh w1 w2 Hal. unfold try_except.
  specialize (Hb w1 w2 Hal).
  destruct (b1 w1) as [o1 w1'], (b2 w2) as [o2 w2'].
  cbn in Hb. destruct Hb as [-> Hal'].
  destruct o2 as [a|e|]; [|apply Hh; exact Hal'|]; split; auto.
Qed.

Lemma agree_get_session_bind {B : Type} (k1 k2 : session_state -> M B) :
  (forall s1 s2, same_but_debug s1 s2 -> agree (k1 s1) (k2 s2)) ->
  agree (bind get_session k1) (bind get_session k2).
Proof.
  intros Hk w1 w2 Hal. unfold bind, get_session.
  apply Hk; [exact (proj1 Hal) | exact Hal].
Qed.

Lemma sidebar_only_bind (c : M unit) (k : unit -> M unit) :
  sidebar_only c -> (forall u, sidebar_only (k u)) -> sidebar_only (bind c k).
Proof.
  intros Hc Hk w. destruct (Hc w) as (w1 & Hcw & Hs1 & Hu1).
  destruct (Hk tt w1) as (w2 & Hkw & Hs2 & Hu2).
  exists w2. unfold bind. rewrite Hcw. split; [exact Hkw|].
  split; congruence.
Qed.

Lemma sidebar_only_emit (ev : ui_event) :
  is_sidebar ev = true -> sidebar_only (emit ev).
Proof.
  intros Hev w. eexists. split; [reflexivity|]. split; [reflexivity|].
  cbn. rewrite main_page_app. unfold main_page at 2.
  rewrite filter_cons_False by (rewrite Hev; discriminate).
  rewrite filter_nil. apply app_nil_r.
Qed.

Lemma sidebar_only_when (b : bool) (body : M unit) :
  sidebar_only body -> sidebar_only (when b body).
Proof.
  destruct b; [auto|]. intros _ w. exists w. repeat split; reflexivity.
Qed.

Lemma agree_when_sidebar (b1 b2 : bool) (body1 body2 : M unit) :
  sidebar_only body1 -> sidebar_only body2 ->
  agree (when b1 body1) (when b2 body2).
Proof.
  intros H1 H2 w1 w2 [Hs Hu].
  destruct (sidebar_only_when b1 _ H1 w1) as (w1' & -> & Hs1 & Hu1).
  destruct (sidebar_only_when b2 _ H2 w2) as (w2' & -> & Hs2 & Hu2).
  cbn. split; [reflexivity|]. split; [|congruence].
  unfold same_but_debug in *. congruence.
Qed.

Ltac sidebar :=
  repeat first
    [ apply sidebar_only_emit; reflexivity
    | apply sidebar_only_when
    | apply sidebar_only_bind; [|intros ?] ].

Ltac agree :=
  repeat first
    [ apply agree_ret
    | apply agree_raise
    | apply agree_stop
    | apply agree_lift_res
    | apply agree_emit
    | apply agree_try_except; [|intros ?]
    | apply agree_bind; [|intros ?] ].

Lemma same_but_debug_fields (s1 s2 : session_state) :
  same_but_debug s1 s2 ->
  exists b : bool, s1 = set_debug b s2.
Proof.
  intros Hs. exists (debug s1).
  destruct s1, s2. unfold same_but_debug, set_debug in *. cbn in *.
  now injection Hs as -> -> -> -> -> -> -> ->.
Qed.

Lemma agree_get_text (uploaded : option uploaded_file) :
  agree (get_text_from_uploaded_pdf uploaded)
    (get_text_from_uploaded_pdf uploaded).
Proof.
  unfold get_text_from_uploaded_pdf, st_error.
  destruct uploaded; agree.
Qed.

Lemma agree_query (query : string) (columns : list string) :
  agree (query_cortex_search_service query columns)
    (query_cortex_search_service query columns).
Proof.
  unfold query_cortex_search_service, st_error.
  apply agree_bind; [agree|]. intros svc.
  apply agree_get_session_bind. intros s1 s2 Hs.
  destruct (same_but_debug_fields _ _ Hs) as (b & ->).
  cbn [set_debug selected_insurer selected_plan num_retrieved_chunks debug].
  cbv zeta.
  apply agree_bind; [agree|]. intros results.
  apply agree_bind; [agree|]. intros context_str.
  apply agree_bind; [|intros ?; agree].
  apply agree_when_sidebar; sidebar.
Qed.

Lemma agree_create_prompt (question : string) :
  agree (create_prompt question) (create_prompt question).
Proof.
  unfold create_prompt.
  apply agree_bind; [apply agree_query|]. intros [policy_context results].
  apply agree_get_session_bind. intros s1 s2 Hs.
  destruct (same_but_debug_fields _ _ Hs) as (b & ->).
  cbn [set_debug patient_file_uploader current_task debug]. cbv zeta.
  apply agree_bind.
  { destruct (patient_file_uploader s2); [|agree].
    apply agree_bind; [apply agree_get_text|]. intros text. agree. }
  intros patient_context.
  apply agree_bind; [agree|]. intros final_prompt.
  apply agree_bind; [|intros ?; agree].
  apply agree_when_sidebar; sidebar.
Qed.

(** X13: up to the prompt, the debug toggle changes the sidebar and nothing
    else.  Two calls of [create_prompt] on the same question, started in
    worlds that differ at most in the debug toggle and in their sidebar
    entries, end the same way (the same prompt and results, the same stop,
    or the same exception) in worlds that again differ at most in the
    toggle and in the sidebar. *)
Theorem create_prompt_debug_changes_sidebar_only (question : string)
    (w1 w2 : world) :
  alike w1 w2 ->
  fst (create_prompt question w1) = fst (create_prompt question w2)
  /\ same_but_debug (session (snd (create_prompt question w1)))
       (session (snd (create_prompt question w2)))
  /\ main_page (ui (snd (create_prompt question w1)))
     = main_page (ui (snd (create_prompt question w2))).
Proof.
  intros Hal.
  destruct (agree_create_prompt question w1 w2 Hal) as (Ho & Hs & Hu).
  split; [exact Ho|]. split; [exact Hs | exact Hu].
Qed.

(** *** Further properties: how a run can end *)

Lemma format_context_error (results : list search_result) (i : Z)
    (acc : string) (e : exn) :
  format_context i results acc = inl e ->
  e = Exception "'chunk'"
  /\ Exists (fun r => sr_columns r !! "chunk" = None) results.
Proof.
  revert i acc. induction results as [|r rest IH]; intros i acc H.
  - discriminate.
  - cbn [format_context] in H. unfold getitem, res_bind in H.
    destruct (sr_columns r !! "chunk") as [v|] eqn:Hv.
    + destruct (IH _ _ H) as [He Hex]. split; [exact He|].
      now apply Exists_cons_tl.
    + injection H as <-. split; [reflexivity|]. now apply Exists_cons_hd.
Qed.

Lemma query_ends (query : string) (w w' : world)
    (o : outcome (string * list search_result)) :
  query_cortex_search_service query DEFAULT_COLUMNS w = (o, w') ->
  match o with
  | Ok _ => True
  | Raised e =>
      e = Exception "'chunk'" /\ w' = w /\ text_missing query (session w)
  | Stopped =>
      (exists msg : string, last (ui w') = Some (UiError msg))
      /\ search_fails query (session w)
  end.
Proof.
  intros H. unfold query_cortex_search_service, bind, try_except in H.
  unfold search_fails, text_missing, session_filter.
  destruct cortex_search_service as [e0|svc] eqn:Hsvc; cbn in H.
  { injection H as <- <-. split; [|left; now eexists].
    eexists. apply last_snoc. }
  destruct (svc query DEFAULT_COLUMNS _ _) as [e1|results] eqn:Hsearch;
    cbn in H.
  { injection H as <- <-.
    split; [|right; exists svc, e1; split; [reflexivity | exact Hsearch]].
    eexists. cbn [ui]. apply last_snoc. }
  destruct (format_context 0 results "") as [e2|context_str] eqn:Hctx;
    cbn in H.
  { injection H as <- <-.
    destruct (format_context_error _ _ _ _ Hctx) as [He Hex].
    split; [exact He|]. split; [now destruct w|].
    exists svc, results. split; [reflexivity|].
    split; [exact Hsearch | exact Hex]. }
  destruct (debug (session w)); cbn in H; injection H as <- _; exact I.
Qed.

Lemma create_prompt_ends (question : string) (w w' : world)
    (o : outcome (string * list search_result)) :
  create_prompt question w = (o, w') ->
  match o with
  | Ok _ => True
  | Raised e =>
      e = Exception "'chunk'" /\ w' = w
      /\ text_missing question (session w)
  | Stopped =>
      (exists msg : string, last (ui w') = Some (UiError msg))
      /\ search_fails question (session w)
  end.
Proof.
  intros H.
  destruct (query_cortex_search_service question DEFAULT_COLUMNS w)
    as [[[policy_context results]|e|] wq] eqn:Hq.
  - destruct (create_prompt_ok _ _ _ _ _ Hq) as (prompt & w2 & Hc).
    rewrite Hc in H. injection H as <- _. exact I.
  - unfold create_prompt in H. unfold bind at 1 in H. rewrite Hq in H.
    injection H as <- <-. exact (query_ends _ _ _ _ Hq).
  - unfold create_prompt in H. unfold bind at 1 in H. rewrite Hq in H.
    injection H as <- <-. exact (query_ends _ _ _ _ Hq).
Qed.

Lemma respond_ends (question : string) (ms : list chat_message)
    (w1 w3 : world) (o : outcome unit) :
  messages (session w1) = Some ms ->
  respond question w1 = (o, w3) ->
  match o with
  | Ok _ =>
      exists final_output : string,
        messages (session w3)
        = Some (ms ++ [assistant_message final_output])%list
        /\ last (ui w3) = Some (UiChat "assistant" final_output)
  | Raised e =>
      messages (session w3) = Some ms
      /\ ((e = Exception "'chunk'" /\ text_missing question (session w1))
          \/ (e = duplicate_element_error /\ debug (session w1) = true))
  | Stopped =>
      messages (session w3) = Some ms
      /\ (exists msg : string, last (ui w3) = Some (UiError msg))
      /\ search_fails question (session w1)
  end.
Proof.
  intros Hms Hrun.
  destruct (create_prompt question w1) as [[[prompt results]|e|] w2] eqn:Hc.
  - destruct (debug (session w1)) eqn:Hdebug.
    + rewrite (respond_debug_raises _ _ _ _ _ Hc Hdebug) in Hrun.
      injection Hrun as <- <-. cbn [session].
      split; [now rewrite (keeps_create_prompt _ _ _ _ Hc)|].
      right. split; reflexivity.
    + destruct (respond_run _ _ _ _ _ _ Hc Hms Hdebug)
        as (w' & Hrun' & Hms' & Hui).
      rewrite Hrun' in Hrun. injection Hrun as <- <-.
      eexists. split; [exact Hms' | exact Hui].
  - unfold respond in Hrun. unfold bind at 1 in Hrun. rewrite Hc in Hrun.
    injection Hrun as <- <-.
    destruct (create_prompt_ends _ _ _ _ Hc) as (He & -> & Hcause).
    split; [exact Hms|]. left. split; [exact He | exact Hcause].
  - unfold respond in Hrun. unfold bind at 1 in Hrun. rewrite Hc in Hrun.
    injection Hrun as <- <-.
    split; [now rewrite (keeps_create_prompt _ _ _ _ Hc)|].
    exact (create_prompt_ends _ _ _ _ Hc).
Qed.

Lemma main_asked (input : run_input) (question : string) (w : world) :
  chat_input input = Some question ->
  question <> "" ->
  main input w
  = respond question
      (asked question (initial_messages (session w)) (started input w)).
Proof.
  intros Hin Hq. rewrite main_started, Hin.
  apply str_truthy_true in Hq. rewrite Hq. cbn [when].
  now apply turn_asked.
Qed.

Lemma main_idle (input : run_input) (w : world) :
  chat_input input = None \/ chat_input input = Some "" ->
  main input w = (Ok tt, started input w).
Proof. intros [H|H]; rewrite main_started, H; reflexivity. Qed.

(** X14: a run stops only when the search of its question cannot run (the
    service handle does not resolve, or the search call raises).  The
    history afterwards is the initialised history and the user's question,
    with no assistant message, and the last thing drawn is an error
    message. *)
Theorem main_stop_shows_error (input : run_input) (w w' : world) :
  main input w = (Stopped, w') ->
  exists question : string,
    chat_input input = Some question
    /\ search_fails question (session w)
    /\ messages (session w')
       = Some (initial_messages (session w) ++ [user_message question])%list
    /\ exists msg : string, last (ui w') = Some (UiError msg).
Proof.
  intros Hrun.
  destruct (chat_input input) as [question|] eqn:Hin.
  2: { rewrite main_idle in Hrun by auto. discriminate. }
  destruct (decide (question = "")) as [->|Hq].
  { rewrite main_idle in Hrun by auto. discriminate. }
  rewrite (main_asked _ _ _ Hin Hq) in Hrun.
  pose proof (respond_ends question
                (initial_messages (session w) ++ [user_message question])%list
                (asked question (initial_messages (session w))
                   (started input w))
                _ _ eq_refl Hrun) as (Hms & Herr & Hcause).
  exists question. split; [reflexivity|]. split; [exact Hcause|].
  split; [exact Hms | exact Herr].
Qed.

(** X15: for search results whose values are of the modelled kinds, a run
    can be left by two exceptions only.  One is the [KeyError] of the
    context loop, when the search of the question returned a result without
    the key [chunk].  The other is the duplicate-element error of the second
    text area of the prompt, with debug on.  In both cases the history
    afterwards is the initialised history and the user's question. *)
Theorem main_raises_key_error_or_duplicate (input : run_input)
    (w w' : world) (e : exn) :
  main input w = (Raised e, w') ->
  exists question : string,
    chat_input input = Some question
    /\ messages (session w')
       = Some (initial_messages (session w) ++ [user_message question])%list
    /\ ((e = Exception "'chunk'" /\ text_missing question (session w))
        \/ (e = duplicate_element_error /\ debug (session w) = true)).
Proof.
  intros Hrun.
  destruct (chat_input input) as [question|] eqn:Hin.
  2: { rewrite main_idle in Hrun by auto. discriminate. }
  destruct (decide (question = "")) as [->|Hq].
  { rewrite main_idle in Hrun by auto. discriminate. }
  rewrite (main_asked _ _ _ Hin Hq) in Hrun.
  pose proof (respond_ends question
                (initial_messages (session w) ++ [user_message question])%list
                (asked question (initial_messages (session w))
                   (started input w))
                _ _ eq_refl Hrun) as (Hms & Hcause).
  exists question. split; [reflexivity|]. split; [exact Hms | exact Hcause].
Qed.

(** X16: a run that returns with a non-empty question in hand has recorded
    the user's question and one assistant message after the initialised
    history, and the last thing it drew is that assistant message. *)
Theorem main_return_records_answer (input : run_input) (question : string)
    (w w' : world) :
  chat_input input = Some question ->
  question <> "" ->
  main input w = (Ok tt, w') ->
  exists final_output : string,
    messages (session w')
    = Some (initial_messages (session w)
            ++ [user_message question; assistant_message final_output])%list
    /\ last (ui w') = Some (UiChat "assistant" final_output).
Proof.
  intros Hin Hq Hrun.
  rewrite (main_asked _ _ _ Hin Hq) in Hrun.
  pose proof (respond_ends question
                (initial_messages (session w) ++ [user_message question])%list
                (asked question (initial_messages (session w))
                   (started input w))
                _ _ eq_refl Hrun)
    as (final_output & Hms & Hui).
  exists final_output. rewrite <- app_assoc in Hms.
  split; [exact Hms | exact Hui].
Qed.

(** X17: with debug on, a turn whose prompt was created never reaches the
    completion call.  [create_prompt] has drawn the text area of the prompt
    last; the turn draws the debug heading and ends with the
    duplicate-element error of the second, identical text area.  The
    history holds the user's question and no assistant message, and no
    answer is drawn. *)
Theorem turn_debug_second_text_area (question prompt : string)
    (results : list search_result) (ms : list chat_message)
    (w w2 : world) :
  messages (session w) = Some ms ->
  debug (session w) = true ->
  create_prompt question (asked question ms w)
  = (Ok (prompt, results), w2) ->
  turn question w
  = (Raised duplicate_element_error,
     mk_world (session w2)
       (ui w2 ++ [UiSidebarSubheader "Full LLM Prompt (Debug)"])%list)
  /\ messages (session w2) = Some (ms ++ [user_message question])%list
  /\ exists before : list ui_event,
       ui w2 = (before ++ [UiSidebarTextArea "LLM Prompt" prompt])%list.
Proof.
  intros Hms Hdebug Hc.
  rewrite (turn_asked _ _ _ Hms).
  split; [exact (respond_debug_raises _ _ _ _ _ Hc Hdebug)|].
  split; [now rewrite (keeps_create_prompt _ _ _ _ Hc)|].
  exact (create_prompt_draws_prompt _ _ _ _ _ Hc Hdebug).
Qed.

End App.

(** ** The properties on sample runs *)

(** C2, a run against the claim: the uploaded file does not parse, so the
    extractor returns the empty text, and the prompt has the labelled block
    all the same. *)
Lemma patient_block_without_text :
  exists (text prompt : string) (results : list search_result)
         (w1 w2 : world),
    get_text_from_uploaded_pdf sample_PdfReader (Some broken_pdf) upload_world
    = (Ok text, w1)
    /\ create_prompt sample_PdfReader (inr (sample_service [sample_chunk]))
         sample_json_dumps sample_question upload_world
       = (Ok (prompt, results), w2)
    /\ ~ (contains prompt (patient_block text) <-> text <> "").
Proof.
  exists "",
    (general_template sample_context (patient_block "") sample_question),
    [sample_chunk].
  eexists _, _.
  split; [vm_compute; reflexivity|].
  split; [vm_compute; reflexivity|].
  intros [Hblock _]. apply Hblock; [|reflexivity].
  exact (proj1 (templates_contain_patient sample_context (patient_block "")
                  sample_question)).
Qed.

Lemma create_prompt_patient_block_witness :
  create_prompt sample_PdfReader (inr (sample_service [sample_chunk]))
    sample_json_dumps sample_question upload_world
  = (Ok (general_template sample_context (patient_block "") sample_question,
         [sample_chunk]),
     mk_world (with_upload broken_pdf sample_session)
       [UiError "Error reading uploaded PDF: EOF marker not found"])
  /\ exists (policy_context patient_context : string) (wq : world),
       query_cortex_search_service (inr (sample_service [sample_chunk]))
         sample_json_dumps sample_question DEFAULT_COLUMNS upload_world
       = (Ok (policy_context, [sample_chunk]), wq)
       /\ select_prompt
            (default "general" (current_task (session upload_world)))
            policy_context patient_context sample_question
          = inr (general_template sample_context (patient_block "")
                   sample_question)
       /\ contains
            (general_template sample_context (patient_block "")
               sample_question)
            patient_context
       /\ match patient_file_uploader (session upload_world) with
          | Some f =>
              exists (text : string) (w1 : world),
                get_text_from_uploaded_pdf sample_PdfReader (Some f) wq
                = (Ok text, w1)
                /\ patient_context = patient_block text
                /\ patient_context <> ""
          | None => patient_context = ""
          end.
Proof.
  assert (Hrun :
    create_prompt sample_PdfReader (inr (sample_service [sample_chunk]))
      sample_json_dumps sample_question upload_world
    = (Ok (general_template sample_context (patient_block "")
             sample_question, [sample_chunk]),
       mk_world (with_upload broken_pdf sample_session)
         [UiError "Error reading uploaded PDF: EOF marker not found"]))
    by (vm_compute; reflexivity).
  split; [exact Hrun|].
  exact (create_prompt_patient_block sample_PdfReader
           (inr (sample_service [sample_chunk])) sample_json_dumps
           sample_question _ _ _ _ Hrun).
Defined.

Lemma format_date_warning_cases_witness :
  contains
    (format_date_warning sample_today sample_fromisoformat
       (PStr "2024-01-01") (PStr "not a date")) "Aktif"
  /\ contains
       (format_date_warning sample_today sample_fromisoformat
          (PStr "2024-01-01") (PStr "not a date")) "2024-01-01"
  /\ format_date_warning sample_today sample_fromisoformat PNone
       (PStr "2025-11-20")
     = upload_note (mkdate 2025 11 20) "(hari ini)"
  /\ format_date_warning sample_today sample_fromisoformat PNone
       (PStr "2025-11-19")
     = upload_note (mkdate 2025 11 19) "(1 hari yang lalu)"
  /\ format_date_warning sample_today sample_fromisoformat PNone
       (PStr "2025-11-15")
     = upload_note (mkdate 2025 11 15) "(5 hari yang lalu)"
  /\ format_date_warning sample_today sample_fromisoformat (PStr "") PNone
     = "".
Proof.
  destruct (format_date_warning_cases sample_today sample_fromisoformat
              (PStr "2024-01-01") (PStr "not a date")) as (Hactive & _ & _).
  destruct (Hactive eq_refl) as (_ & Haktif & Hdate).
  destruct (format_date_warning_cases sample_today sample_fromisoformat
              PNone (PStr "2025-11-20")) as (_ & Htoday & _).
  destruct (Htoday eq_refl eq_refl (mkdate 2025 11 20) eq_refl)
    as (s0 & Hnote0 & _ & Hs0 & _).
  rewrite (Hs0 eq_refl) in Hnote0.
  destruct (format_date_warning_cases sample_today sample_fromisoformat
              PNone (PStr "2025-11-19")) as (_ & Hone & _).
  destruct (Hone eq_refl eq_refl (mkdate 2025 11 19) eq_refl)
    as (s1 & Hnote1 & _ & _ & Hs1 & _).
  rewrite (Hs1 eq_refl) in Hnote1.
  destruct (format_date_warning_cases sample_today sample_fromisoformat
              PNone (PStr "2025-11-15")) as (_ & Hfive & _).
  destruct (Hfive eq_refl eq_refl (mkdate 2025 11 15) eq_refl)
    as (s5 & Hnote5 & _ & _ & _ & Hs5).
  rewrite (Hs5 5 ltac:(discriminate) eq_refl) in Hnote5.
  destruct (format_date_warning_cases sample_today sample_fromisoformat
              (PStr "") PNone) as (_ & _ & Hempty).
  split; [exact Haktif|]. split; [exact Hdate|].
  split; [exact Hnote0|]. split; [exact Hnote1|]. split; [exact Hnote5|].
  exact (Hempty eq_refl eq_refl).
Defined.

Lemma select_prompt_unknown_task_witness :
  "triage" <> "general" /\ "triage" <> "coverage" /\ "triage" <> "copay"
  /\ select_prompt "triage" sample_context "" sample_question
     = inr (general_template sample_context "" sample_question)
  /\ select_prompt "triage" sample_context "" sample_question
     = select_prompt "general" sample_context "" sample_question.
Proof.
  assert (Hg : "triage" <> "general") by discriminate.
  assert (Hc : "triage" <> "coverage") by discriminate.
  assert (Hp : "triage" <> "copay") by discriminate.
  split; [exact Hg|]. split; [exact Hc|]. split; [exact Hp|].
  exact (select_prompt_unknown_task "triage" sample_context ""
           sample_question Hg Hc Hp).
Defined.

Lemma references_table_rows_witness :
  references_table [sample_chunk; bare_chunk]
  = table_header
    +:+ "| Policy_XYZ.pdf | [Lihat Dokumen](https://example.org/Policy_XYZ.pdf) | 0.8731 |"
    +:+ nl +:+ "| N/A | [Lihat Dokumen](#) | 0.0000 |" +:+ nl
  /\ float_is_finite score_08731 = true
  /\ four_decimals (format_4f score_08731) = true.
Proof.
  destruct (references_table_rows [sample_chunk; bare_chunk])
    as (Htable & _ & _ & _ & _ & Hfour).
  split; [|split; [reflexivity | exact (Hfour score_08731 eq_refl)]].
  rewrite Htable. vm_compute. reflexivity.
Defined.

Lemma turn_completion_failure_witness :
  messages (session sample_world)
  = Some [mk_message "user" "Halo"; mk_message "assistant" "Hai"]
  /\ debug (session sample_world) = false
  /\ create_prompt sample_PdfReader (inr (sample_service [sample_chunk]))
       sample_json_dumps sample_question
       (asked sample_question
          [mk_message "user" "Halo"; mk_message "assistant" "Hai"]
          sample_world)
     = (Ok (general_template sample_context "" sample_question,
            [sample_chunk]),
        asked sample_question
          [mk_message "user" "Halo"; mk_message "assistant" "Hai"]
          sample_world)
  /\ failing_Complete (model_name (session sample_world))
       (general_template sample_context "" sample_question)
     = inl (Exception "request timed out")
  /\ exists (final_output : string) (ms' : list chat_message) (w' : world),
       turn sample_today sample_fromisoformat sample_PdfReader
         (inr (sample_service [sample_chunk])) failing_Complete
         sample_json_dumps sample_question sample_world
       = (Ok tt, w')
       /\ final_output
          = final_output_of
              ("Error during LLM completion: "
               +:+ exn_str (Exception "request timed out"))
              (date_warning_of sample_today sample_fromisoformat
                 [sample_chunk])
              (references_table [sample_chunk])
       /\ contains final_output "Error during LLM completion: "
       /\ messages (session w') = Some ms'
       /\ ms' = ([mk_message "user" "Halo"; mk_message "assistant" "Hai"]
                 ++ [user_message sample_question;
                     assistant_message final_output])%list
       /\ length ms' = (2 + 2)%nat.
Proof.
  assert (Hc :
    create_prompt sample_PdfReader (inr (sample_service [sample_chunk]))
      sample_json_dumps sample_question
      (asked sample_question
         [mk_message "user" "Halo"; mk_message "assistant" "Hai"]
         sample_world)
    = (Ok (general_template sample_context "" sample_question,
           [sample_chunk]),
       asked sample_question
         [mk_message "user" "Halo"; mk_message "assistant" "Hai"]
         sample_world))
    by (vm_compute; reflexivity).
  split; [reflexivity|]. split; [reflexivity|]. split; [exact Hc|].
  split; [reflexivity|].
  exact (turn_completion_failure sample_today sample_fromisoformat
           sample_PdfReader (inr (sample_service [sample_chunk]))
           failing_Complete sample_json_dumps sample_question _ _
           [mk_message "user" "Halo"; mk_message "assistant" "Hai"]
           (Exception "request timed out") sample_world _
           eq_refl eq_refl Hc eq_refl).
Defined.

(** C7, a run against the claim: the service handle does not resolve, the
    turn stops, and no entry of the page shows a search filter. *)
Lemma service_missing_shows_no_filter :
  exists w' : world,
    turn sample_today sample_fromisoformat sample_PdfReader
      (inl (Exception "Cortex Search Service does not exist"))
      sample_Complete sample_json_dumps sample_question sample_world
    = (Stopped, w')
    /\ forall f : search_filter,
         ~ In (filter_shown sample_json_dumps f) (ui w').
Proof.
  eexists. split; [vm_compute; reflexivity|].
  intros f [H|[H|[]]]; unfold filter_shown in H; [discriminate H|].
  injection H as H. vm_compute in H. discriminate H.
Qed.

Lemma turn_search_failure_witness :
  messages (session sample_world)
  = Some [mk_message "user" "Halo"; mk_message "assistant" "Hai"]
  /\ turn sample_today sample_fromisoformat sample_PdfReader
       (inl (Exception "Cortex Search Service does not exist"))
       sample_Complete sample_json_dumps sample_question sample_world
     = (Stopped,
        mk_world
          (set_messages
             [mk_message "user" "Halo"; mk_message "assistant" "Hai";
              user_message sample_question] sample_session)
          [UiChat "user" sample_question; UiError service_missing_error])
  /\ turn sample_today sample_fromisoformat sample_PdfReader
       (inr failing_service) sample_Complete sample_json_dumps
       sample_question sample_world
     = (Stopped,
        mk_world
          (set_messages
             [mk_message "user" "Halo"; mk_message "assistant" "Hai";
              user_message sample_question] sample_session)
          [UiChat "user" sample_question;
           UiError "Error during search: invalid filter";
           filter_shown sample_json_dumps
             (FAnd [FEq "language" "Indonesian"; FEq "INSURER" "Mandiri";
                    FILike "POLICY_PLAN" "%XYZ%"])]).
Proof.
  split; [reflexivity|]. split.
  - exact (proj1 (turn_search_failure sample_today sample_fromisoformat
                    sample_PdfReader
                    (inl (Exception "Cortex Search Service does not exist"))
                    sample_Complete sample_json_dumps sample_question
                    [mk_message "user" "Halo"; mk_message "assistant" "Hai"]
                    sample_world eq_refl)
             (Exception "Cortex Search Service does not exist") eq_refl).
  - exact (proj2 (turn_search_failure sample_today sample_fromisoformat
                    sample_PdfReader (inr failing_service) sample_Complete
                    sample_json_dumps sample_question
                    [mk_message "user" "Halo"; mk_message "assistant" "Hai"]
                    sample_world eq_refl)
             failing_service (Exception "invalid filter") eq_refl eq_refl).
Defined.

Lemma get_text_never_raises_witness :
  exists (text : string) (w' : world),
    get_text_from_uploaded_pdf sample_PdfReader (Some broken_pdf)
      sample_world
    = (Ok text, w')
    /\ text = ""
    /\ ui w' = [UiError "Error reading uploaded PDF: EOF marker not found"].
Proof.
  destruct (get_text_never_raises sample_PdfReader (Some broken_pdf)
              sample_world) as (text & w' & Hrun & _ & _ & Hfail).
  destruct (Hfail broken_pdf (Exception "EOF marker not found")
              eq_refl eq_refl) as (Htext & Hui).
  exists text, w'. repeat split; assumption.
Defined.

Lemma turn_empty_results_witness :
  messages (session sample_world)
  = Some [mk_message "user" "Halo"; mk_message "assistant" "Hai"]
  /\ debug (session sample_world) = false
  /\ sample_service [] sample_question DEFAULT_COLUMNS
       (session_filter (session sample_world))
       (num_retrieved_chunks (session sample_world))
     = inr []
  /\ exists (answer : string) (w' : world),
       turn sample_today sample_fromisoformat sample_PdfReader
         (inr (sample_service [])) sample_Complete sample_json_dumps
         sample_question sample_world
       = (Ok tt, w')
       /\ date_warning_of sample_today sample_fromisoformat [] = ""
       /\ messages (session w')
          = Some ([mk_message "user" "Halo"; mk_message "assistant" "Hai"]
                  ++ [user_message sample_question;
                      assistant_message
                        (answer +:+ nl +:+ nl +:+ "---" +:+ nl +:+ nl
                         +:+ table_header)])%list
       /\ last (ui w')
          = Some (UiChat "assistant"
                    (answer +:+ nl +:+ nl +:+ "---" +:+ nl +:+ nl
                     +:+ table_header)).
Proof.
  split; [reflexivity|]. split; [reflexivity|]. split; [reflexivity|].
  exact (turn_empty_results sample_today sample_fromisoformat
           sample_PdfReader (inr (sample_service [])) sample_Complete
           sample_json_dumps sample_question
           [mk_message "user" "Halo"; mk_message "assistant" "Hai"]
           (sample_service []) sample_world eq_refl eq_refl eq_refl
           eq_refl).
Defined.

Lemma format_date_warning_future_witness :
  truthy PNone = false
  /\ truthy (PStr "2025-11-25") = true
  /\ upload_day sample_fromisoformat (PStr "2025-11-25")
     = Some (mkdate 2025 11 25)
  /\ date_diff_days (mkdate 2025 11 25) sample_today = 5
  /\ 2 <= 5
  /\ format_date_warning sample_today sample_fromisoformat PNone
       (PStr "2025-11-25")
     = upload_note (mkdate 2025 11 25) "(-5 hari yang lalu)".
Proof.
  assert (Hn : 2 <= 5) by discriminate.
  split; [reflexivity|]. split; [reflexivity|]. split; [reflexivity|].
  split; [reflexivity|]. split; [exact Hn|].
  exact (format_date_warning_future sample_today sample_fromisoformat PNone
           (PStr "2025-11-25") (mkdate 2025 11 25) 5
           eq_refl eq_refl eq_refl eq_refl Hn).
Defined.

(** ** The further properties on sample runs *)

Lemma query_returns_labelled_context_witness :
  Forall has_chunk [sample_chunk; bare_chunk]
  /\ exists context_str : string,
       context_str
       = "Context document 1: Rawat inap ditanggung penuh. " +:+ nl +:+ nl
         +:+ "Context document 2: Teks polis. " +:+ nl +:+ nl
       /\ query_cortex_search_service
            (inr (sample_service [sample_chunk; bare_chunk]))
            sample_json_dumps sample_question DEFAULT_COLUMNS sample_world
          = (Ok (context_str, [sample_chunk; bare_chunk]), sample_world).
Proof.
  assert (Hall : Forall has_chunk [sample_chunk; bare_chunk]).
  { repeat constructor; eexists; vm_compute; reflexivity. }
  split; [exact Hall|].
  destruct (query_returns_labelled_context
              (inr (sample_service [sample_chunk; bare_chunk]))
              sample_json_dumps sample_question DEFAULT_COLUMNS
              (sample_service [sample_chunk; bare_chunk])
              [sample_chunk; bare_chunk] sample_world
              eq_refl eq_refl Hall) as (context_str & Hctx & Hrun).
  exists context_str. split; [|exact Hrun].
  rewrite Hctx. vm_compute. reflexivity.
Defined.

Lemma turn_missing_chunk_key_witness :
  Exists (fun r => sr_columns r !! "chunk" = None)
    [sample_chunk; no_text_chunk]
  /\ turn sample_today sample_fromisoformat sample_PdfReader
       (inr (sample_service [sample_chunk; no_text_chunk])) sample_Complete
       sample_json_dumps sample_question sample_world
     = (Raised (Exception "'chunk'"),
        asked sample_question
          [mk_message "user" "Halo"; mk_message "assistant" "Hai"]
          sample_world).
Proof.
  assert (Hex : Exists (fun r => sr_columns r !! "chunk" = None)
                  [sample_chunk; no_text_chunk]).
  { apply Exists_cons_tl, Exists_cons_hd. vm_compute. reflexivity. }
  split; [exact Hex|].
  exact (turn_missing_chunk_key sample_today sample_fromisoformat
           sample_PdfReader
           (inr (sample_service [sample_chunk; no_text_chunk]))
           sample_Complete sample_json_dumps sample_question
           [mk_message "user" "Halo"; mk_message "assistant" "Hai"]
           (sample_service [sample_chunk; no_text_chunk])
           [sample_chunk; no_text_chunk] sample_world
           eq_refl eq_refl eq_refl Hex).
Defined.

Lemma format_date_warning_parse_error_witness :
  sample_fromisoformat "kemarin"
  = inl (Exception "Invalid isoformat string: 'kemarin'")
  /\ format_date_warning sample_today sample_fromisoformat PNone
       (PStr "kemarin")
     = warning_header
       +:+ "- Gagal memuat metadata tanggal: Invalid isoformat string: 'kemarin'"
       +:+ nl.
Proof.
  split; [reflexivity|].
  exact (format_date_warning_parse_error sample_today sample_fromisoformat
           PNone "kemarin"
           (Exception "Invalid isoformat string: 'kemarin'")
           eq_refl ltac:(discriminate) eq_refl).
Defined.

Lemma get_text_joins_pages_witness :
  sample_PdfReader (getvalue good_pdf)
  = inr (map (@inr exn string) ["Diagnosis: apendisitis akut"])
  /\ get_text_from_uploaded_pdf sample_PdfReader (Some good_pdf) sample_world
     = (Ok ("Diagnosis: apendisitis akut" +:+ nl), sample_world).
Proof.
  split; [reflexivity|].
  exact (get_text_joins_pages sample_PdfReader good_pdf
           ["Diagnosis: apendisitis akut"] sample_world eq_refl).
Defined.

Lemma get_text_drops_partial_text_witness :
  paged_PdfReader (getvalue good_pdf)
  = inr (map (@inr exn string) ["Halaman 1"]
         ++ inl (Exception "cannot decode page 2") :: [inr "Halaman 3"])%list
  /\ get_text_from_uploaded_pdf paged_PdfReader (Some good_pdf) sample_world
     = (Ok "",
        mk_world sample_session
          [UiError "Error reading uploaded PDF: cannot decode page 2"]).
Proof.
  split; [reflexivity|].
  exact (get_text_drops_partial_text paged_PdfReader good_pdf ["Halaman 1"]
           (Exception "cannot decode page 2") [inr "Halaman 3"] sample_world
           eq_refl).
Defined.

Lemma turn_records_what_it_draws_witness :
  exists w' : world,
    turn sample_today sample_fromisoformat sample_PdfReader
      (inr (sample_service [sample_chunk])) sample_Complete sample_json_dumps
      sample_question sample_world
    = (Ok tt, w')
    /\ messages (session w')
       = Some ([mk_message "user" "Halo"; mk_message "assistant" "Hai"]
               ++ [user_message sample_question;
                   assistant_message
                     ("Informasi tidak ditemukan dalam dokumen polis."
                      +:+ nl +:+ nl +:+ "---" +:+ nl
                      +:+ date_warning_of sample_today sample_fromisoformat
                            [sample_chunk]
                      +:+ nl +:+ references_table [sample_chunk])])%list
    /\ last (ui w')
       = Some (UiChat "assistant"
                 ("Informasi tidak ditemukan dalam dokumen polis."
                  +:+ nl +:+ nl +:+ "---" +:+ nl
                  +:+ date_warning_of sample_today sample_fromisoformat
                        [sample_chunk]
                  +:+ nl +:+ references_table [sample_chunk])).
Proof.
  assert (Hc :
    create_prompt sample_PdfReader (inr (sample_service [sample_chunk]))
      sample_json_dumps sample_question
      (asked sample_question
         [mk_message "user" "Halo"; mk_message "assistant" "Hai"]
         sample_world)
    = (Ok (general_template sample_context "" sample_question,
           [sample_chunk]),
       asked sample_question
         [mk_message "user" "Halo"; mk_message "assistant" "Hai"]
         sample_world))
    by (vm_compute; reflexivity).
  exact (turn_records_what_it_draws sample_today sample_fromisoformat
           sample_PdfReader (inr (sample_service [sample_chunk]))
           sample_Complete sample_json_dumps sample_question _
           "Informasi tidak ditemukan dalam dokumen polis." _
           [mk_message "user" "Halo"; mk_message "assistant" "Hai"]
           sample_world _ eq_refl eq_refl Hc eq_refl).
Defined.

Lemma main_without_question_witness :
  exists w' : world,
    main sample_today sample_fromisoformat sample_PdfReader
      (inr failing_service) failing_Complete sample_json_dumps
      (mk_input false true false None) sample_world
    = (Ok tt, w')
    /\ messages (session w')
       = Some [mk_message "user" "Halo"; mk_message "assistant" "Hai"]
    /\ ui w'
       = [UiChat "user" "Halo"; UiChat "assistant" "Hai";
          UiWrite "Pilih jenis pertanyaan (Select question type):"].
Proof.
  exact (main_without_question sample_today sample_fromisoformat
           sample_PdfReader (inr failing_service) failing_Complete
           sample_json_dumps (mk_input false true false None) sample_world
           (or_introl eq_refl)).
Defined.

Lemma main_history_append_only_witness :
  exists extra : list chat_message,
    messages
      (session
         (snd (main sample_today sample_fromisoformat sample_PdfReader
                 (inr failing_service) sample_Complete sample_json_dumps
                 (mk_input false false false (Some sample_question))
                 sample_world)))
    = Some (initial_messages sample_session ++ extra)%list
    /\ (extra = []
        \/ exists question : string,
             Some sample_question = Some question
             /\ (extra = [user_message question]
                 \/ exists final_output : string,
                      extra = [user_message question;
                               assistant_message final_output])).
Proof.
  exact (main_history_append_only sample_today sample_fromisoformat
           sample_PdfReader (inr failing_service) sample_Complete
           sample_json_dumps
           (mk_input false false false (Some sample_question)) sample_world
           _ _ (surjective_pairing _)).
Defined.

Lemma main_task_and_settings_witness :
  current_task
    (session
       (snd (main sample_today sample_fromisoformat sample_PdfReader
               (inr (sample_service [sample_chunk])) sample_Complete
               sample_json_dumps
               (mk_input false true false (Some sample_question))
               sample_world)))
  = Some "coverage"
  /\ settings
       (session
          (snd (main sample_today sample_fromisoformat sample_PdfReader
                  (inr (sample_service [sample_chunk])) sample_Complete
                  sample_json_dumps
                  (mk_input false true false (Some sample_question))
                  sample_world)))
     = settings sample_session.
Proof.
  exact (main_task_and_settings sample_today sample_fromisoformat
           sample_PdfReader (inr (sample_service [sample_chunk]))
           sample_Complete sample_json_dumps
           (mk_input false true false (Some sample_question)) sample_world
           _ _ (surjective_pairing _)).
Defined.

Lemma create_prompt_debug_changes_sidebar_only_witness :
  alike debug_world sample_world
  /\ fst (create_prompt sample_PdfReader
            (inr (sample_service [sample_chunk])) sample_json_dumps
            sample_question debug_world)
     = fst (create_prompt sample_PdfReader
              (inr (sample_service [sample_chunk])) sample_json_dumps
              sample_question sample_world)
  /\ same_but_debug
       (session
          (snd (create_prompt sample_PdfReader
                  (inr (sample_service [sample_chunk])) sample_json_dumps
                  sample_question debug_world)))
       (session
          (snd (create_prompt sample_PdfReader
                  (inr (sample_service [sample_chunk])) sample_json_dumps
                  sample_question sample_world)))
  /\ main_page
       (ui (snd (create_prompt sample_PdfReader
                   (inr (sample_service [sample_chunk])) sample_json_dumps
                   sample_question debug_world)))
     = main_page
         (ui (snd (create_prompt sample_PdfReader
                     (inr (sample_service [sample_chunk])) sample_json_dumps
                     sample_question sample_world))).
Proof.
  assert (Hal : alike debug_world sample_world) by (split; reflexivity).
  split; [exact Hal|].
  exact (create_prompt_debug_changes_sidebar_only sample_PdfReader
           (inr (sample_service [sample_chunk])) sample_json_dumps
           sample_question debug_world sample_world Hal).
Defined.

Lemma main_stop_shows_error_witness :
  exists question : string,
    Some sample_question = Some question
    /\ search_fails (inr failing_service) question sample_session
    /\ messages
         (session
            (snd (main sample_today sample_fromisoformat sample_PdfReader
                    (inr failing_service) sample_Complete sample_json_dumps
                    (mk_input false false false (Some sample_question))
                    sample_world)))
       = Some (initial_messages sample_session
               ++ [user_message question])%list
    /\ exists msg : string,
         last
           (ui (snd (main sample_today sample_fromisoformat sample_PdfReader
                       (inr failing_service) sample_Complete
                       sample_json_dumps
                       (mk_input false false false (Some sample_question))
                       sample_world)))
         = Some (UiError msg).
Proof.
  assert (Hrun :
    main sample_today sample_fromisoformat sample_PdfReader
      (inr failing_service) sample_Complete sample_json_dumps
      (mk_input false false false (Some sample_question)) sample_world
    = (Stopped,
       snd (main sample_today sample_fromisoformat sample_PdfReader
              (inr failing_service) sample_Complete sample_json_dumps
              (mk_input false false false (Some sample_question))
              sample_world)))
    by (vm_compute; reflexivity).
  exact (main_stop_shows_error sample_today sample_fromisoformat
           sample_PdfReader (inr failing_service) sample_Complete
           sample_json_dumps
           (mk_input false false false (Some sample_question)) sample_world
           _ Hrun).
Defined.

Lemma main_raises_key_error_or_duplicate_witness :
  exists question : string,
    Some sample_question = Some question
    /\ messages
         (session
            (snd (main sample_today sample_fromisoformat sample_PdfReader
                    (inr (sample_service [sample_chunk])) sample_Complete
                    sample_json_dumps
                    (mk_input false false false (Some sample_question))
                    debug_world)))
       = Some (initial_messages debug_session
               ++ [user_message question])%list
    /\ ((duplicate_element_error = Exception "'chunk'"
         /\ text_missing (inr (sample_service [sample_chunk])) question
              debug_session)
        \/ (duplicate_element_error = duplicate_element_error
            /\ debug debug_session = true)).
Proof.
  assert (Hrun :
    main sample_today sample_fromisoformat sample_PdfReader
      (inr (sample_service [sample_chunk])) sample_Complete
      sample_json_dumps
      (mk_input false false false (Some sample_question)) debug_world
    = (Raised duplicate_element_error,
       snd (main sample_today sample_fromisoformat sample_PdfReader
              (inr (sample_service [sample_chunk])) sample_Complete
              sample_json_dumps
              (mk_input false false false (Some sample_question))
              debug_world)))
    by (vm_compute; reflexivity).
  exact (main_raises_key_error_or_duplicate sample_today
           sample_fromisoformat sample_PdfReader
           (inr (sample_service [sample_chunk])) sample_Complete
           sample_json_dumps
           (mk_input false false false (Some sample_question)) debug_world
           _ _ Hrun).
Defined.

Lemma main_return_records_answer_witness :
  sample_question <> ""
  /\ exists final_output : string,
       messages
         (session
            (snd (main sample_today sample_fromisoformat sample_PdfReader
                    (inr (sample_service [sample_chunk])) sample_Complete
                    sample_json_dumps
                    (mk_input false false false (Some sample_question))
                    sample_world)))
       = Some (initial_messages sample_session
               ++ [user_message sample_question;
                   assistant_message final_output])%list
       /\ last
            (ui (snd (main sample_today sample_fromisoformat
                        sample_PdfReader
                        (inr (sample_service [sample_chunk]))
                        sample_Complete sample_json_dumps
                        (mk_input false false false (Some sample_question))
                        sample_world)))
          = Some (UiChat "assistant" final_output).
Proof.
  assert (Hq : sample_question <> "") by discriminate.
  assert (Hrun :
    main sample_today sample_fromisoformat sample_PdfReader
      (inr (sample_service [sample_chunk])) sample_Complete
      sample_json_dumps
      (mk_input false false false (Some sample_question)) sample_world
    = (Ok tt,
       snd (main sample_today sample_fromisoformat sample_PdfReader
              (inr (sample_service [sample_chunk])) sample_Complete
              sample_json_dumps
              (mk_input false false false (Some sample_question))
              sample_world)))
    by (vm_compute; reflexivity).
  split; [exact Hq|].
  exact (main_return_records_answer sample_today sample_fromisoformat
           sample_PdfReader (inr (sample_service [sample_chunk]))
           sample_Complete sample_json_dumps
           (mk_input false false false (Some sample_question))
           sample_question sample_world _ eq_refl Hq Hrun).
Defined.

Lemma turn_debug_second_text_area_witness :
  messages (session debug_world)
  = Some [mk_message "user" "Halo"; mk_message "assistant" "Hai"]
  /\ debug (session debug_world) = true
  /\ turn sample_today sample_fromisoformat sample_PdfReader
       (inr (sample_service [sample_chunk])) sample_Complete
       sample_json_dumps sample_question debug_world
     = (Raised duplicate_element_error,
        mk_world
          (session
             (snd (create_prompt sample_PdfReader
                     (inr (sample_service [sample_chunk]))
                     sample_json_dumps sample_question
                     (asked sample_question
                        [mk_message "user" "Halo";
                         mk_message "assistant" "Hai"] debug_world))))
          (ui (snd (create_prompt sample_PdfReader
                      (inr (sample_service [sample_chunk]))
                      sample_json_dumps sample_question
                      (asked sample_question
                         [mk_message "user" "Halo";
                          mk_message "assistant" "Hai"] debug_world)))
           ++ [UiSidebarSubheader "Full LLM Prompt (Debug)"])%list)
  /\ messages
       (session
          (snd (create_prompt sample_PdfReader
                  (inr (sample_service [sample_chunk])) sample_json_dumps
                  sample_question
                  (asked sample_question
                     [mk_message "user" "Halo"; mk_message "assistant" "Hai"]
                     debug_world))))
     = Some ([mk_message "user" "Halo"; mk_message "assistant" "Hai"]
             ++ [user_message sample_question])%list
  /\ exists before : list ui_event,
       ui (snd (create_prompt sample_PdfReader
                  (inr (sample_service [sample_chunk])) sample_json_dumps
                  sample_question
                  (asked sample_question
                     [mk_message "user" "Halo"; mk_message "assistant" "Hai"]
                     debug_world)))
       = (before
          ++ [UiSidebarTextArea "LLM Prompt"
                (general_template sample_context "" sample_question)])%list.
Proof.
  assert (Hc :
    create_prompt sample_PdfReader (inr (sample_service [sample_chunk]))
      sample_json_dumps sample_question
      (asked sample_question
         [mk_message "user" "Halo"; mk_message "assistant" "Hai"]
         debug_world)
    = (Ok (general_template sample_context "" sample_question,
           [sample_chunk]),
       snd (create_prompt sample_PdfReader
              (inr (sample_service [sample_chunk])) sample_json_dumps
              sample_question
              (asked sample_question
                 [mk_message "user" "Halo"; mk_message "assistant" "Hai"]
                 debug_world))))
    by (vm_compute; reflexivity).
  split; [reflexivity|]. split; [reflexivity|].
  exact (turn_debug_second_text_area sample_today sample_fromisoformat
           sample_PdfReader (inr (sample_service [sample_chunk]))
           sample_Complete sample_json_dumps sample_question _ _
           [mk_message "user" "Halo"; mk_message "assistant" "Hai"]
           debug_world _ eq_refl eq_refl Hc).
Defined.
